(** * LogWell query translation: a shallow embedding of [ui/src/App.js]
      ([processQuery] and its helpers) and of the field auto-suggest routine
      of [.github/copilot-instructions.md], with the properties of the
      translation pipeline stated over them. *)

From Stdlib Require Import ZArith List String Ascii Bool Lia DecimalString.
Import ListNotations.
Open Scope string_scope.
Open Scope Z_scope.

(* ================================================================== *)
(** ** JavaScript values and the primitive operations the code uses *)
(* ================================================================== *)

Module Js.

(** The values that travel through [processQuery] are JSON values decoded by
    axios.  Numbers are the integral ones (counts, codes); fractional and
    exponent-form numbers are outside the model.  An object carries its
    members in its own enumeration order ([Object.entries]), keys unique.
    [undefined] (a missing member) is [None] of [option json]. *)
#[warnings="-register-all"]
Inductive json : Type :=
| JNull
| JBool (b : bool)
| JNum (n : Z)
| JStr (s : string)
| JArr (items : list json)
| JObj (members : list (string * json)).

Definition dquote : string := String (ascii_of_nat 34) EmptyString.
Definition nl : string := String (ascii_of_nat 10) EmptyString.

(** [Array.prototype.join] on strings. *)
Fixpoint join (sep : string) (l : list string) : string :=
  match l with
  | [] => ""
  | [x] => x
  | x :: rest => x ++ sep ++ join sep rest
  end.

(** Decimal rendering of an integral number. *)
Definition string_of_Z (n : Z) : string := NilZero.string_of_int (Z.to_int n).

(** [ToString], as a template literal applies it. *)
Fixpoint toString (v : json) : string :=
  match v with
  | JNull => "null"
  | JBool true => "true"
  | JBool false => "false"
  | JNum n => string_of_Z n
  | JStr s => s
  | JArr items =>
      join "," (map (fun e => match e with JNull => "" | _ => toString e end) items)
  | JObj _ => "[object Object]"
  end.

(** [ToBoolean]. *)
Definition truthy (v : json) : bool :=
  match v with
  | JNull => false
  | JBool b => b
  | JNum n => negb (n =? 0)
  | JStr s => negb (s =? "")%string
  | JArr _ => true
  | JObj _ => true
  end.

Definition truthy_opt (v : option json) : bool :=
  match v with
  | None => false
  | Some j => truthy j
  end.

(** [a || b] on a possibly missing member. *)
Definition or_else (v : option json) (dflt : json) : json :=
  match v with
  | Some j => if truthy j then j else dflt
  | None => dflt
  end.

(** [typeof v === 'object']: true of null, arrays and objects. *)
Definition typeof_object (v : json) : bool :=
  match v with
  | JNull | JArr _ | JObj _ => true
  | _ => false
  end.

Definition is_null (v : json) : bool :=
  match v with
  | JNull => true
  | _ => false
  end.

(** [v === 'lit'] against a string literal. *)
Definition is_str (v : json) (lit : string) : bool :=
  match v with
  | JStr s => (s =? lit)%string
  | _ => false
  end.

Definition is_str_opt (v : option json) (lit : string) : bool :=
  match v with
  | Some j => is_str j lit
  | None => false
  end.

(** Member access [o.k] on a non-nullish value; primitives and arrays have
    none of the member names the pipeline reads. *)
Fixpoint assoc (k : string) (l : list (string * json)) : option json :=
  match l with
  | [] => None
  | (k', v) :: rest => if (k' =? k)%string then Some v else assoc k rest
  end.

Definition member (o : json) (k : string) : option json :=
  match o with
  | JObj l => assoc k l
  | _ => None
  end.

Definition string_of_nat (n : nat) : string := string_of_Z (Z.of_nat n).

Fixpoint chars (s : string) : list json :=
  match s with
  | EmptyString => []
  | String c rest => JStr (String c EmptyString) :: chars rest
  end.

Fixpoint indexed (i : nat) (l : list json) : list (string * json) :=
  match l with
  | [] => []
  | v :: rest => (string_of_nat i, v) :: indexed (S i) rest
  end.

(** [Object.entries] of a non-nullish value. *)
Definition entries (v : json) : list (string * json) :=
  match v with
  | JObj l => l
  | JArr l => indexed 0 l
  | JStr s => indexed 0 (chars s)
  | _ => []
  end.

(** ASCII lower-casing, shared by [String.prototype.toLowerCase] and Python's
    [str.lower] on the field names of the log schema. *)
Definition lower_ascii (c : ascii) : ascii :=
  let n := nat_of_ascii c in
  if ((65 <=? n) && (n <=? 90))%nat then ascii_of_nat (n + 32) else c.

Fixpoint toLowerCase (s : string) : string :=
  match s with
  | EmptyString => EmptyString
  | String c rest => String (lower_ascii c) (toLowerCase rest)
  end.

(** [hay.includes(needle)] / Python's [needle in hay]. *)
Fixpoint includes (hay needle : string) : bool :=
  prefix needle hay ||
  match hay with
  | EmptyString => false
  | String _ rest => includes rest needle
  end.

End Js.

Import Js.

(* ================================================================== *)
(** ** The [Date] object *)
(* ================================================================== *)

Module JsDate.

(** A [Date] is its time value: milliseconds since the epoch (UTC).  The host
    time zone is a fixed offset, [tzOffset] minutes as [getTimezoneOffset]
    reports it (UTC minus local time); daylight-saving transitions are outside
    the model. *)
Record clock : Type := mkClock {
  now : Z;        (* [new Date()] *)
  tzOffset : Z    (* minutes *)
}.

Definition msPerDay : Z := 86400000.
Definition msPerHour : Z := 3600000.
Definition msPerMinute : Z := 60000.

Definition Day (t : Z) : Z := t / msPerDay.
Definition TimeWithinDay (t : Z) : Z := t mod msPerDay.

Definition LocalTime (c : clock) (t : Z) : Z := t - tzOffset c * msPerMinute.
Definition UTC (c : clock) (t : Z) : Z := t + tzOffset c * msPerMinute.

(** Day number of a proleptic Gregorian date ([month1] counts from 1); linear
    in [date], so that a day past the end of the month runs into the next
    one, as [MakeDay] has it. *)
Definition DaysFromCivil (year month1 date : Z) : Z :=
  let y := if month1 <=? 2 then year - 1 else year in
  let era := y / 400 in
  let yoe := y - era * 400 in
  let mp := if 2 <? month1 then month1 - 3 else month1 + 9 in
  let doy := (153 * mp + 2) / 5 + date - 1 in
  let doe := yoe * 365 + yoe / 4 - yoe / 100 + doy in
  era * 146097 + doe - 719468.

(** Year, month (from 1) and day of the month of a day number. *)
Definition CivilFromDays (day : Z) : Z * Z * Z :=
  let z := day + 719468 in
  let era := z / 146097 in
  let doe := z - era * 146097 in
  let yoe := (doe - doe / 1460 + doe / 36524 - doe / 146096) / 365 in
  let doy := doe - (365 * yoe + yoe / 4 - yoe / 100) in
  let mp := (5 * doy + 2) / 153 in
  let d := doy - (153 * mp + 2) / 5 + 1 in
  let m := if mp <? 10 then mp + 3 else mp - 9 in
  (if m <=? 2 then yoe + era * 400 + 1 else yoe + era * 400, m, d).

Definition YearFromTime (t : Z) : Z := fst (fst (CivilFromDays (Day t))).
Definition MonthFromTime (t : Z) : Z := snd (fst (CivilFromDays (Day t))) - 1.
Definition DateFromTime (t : Z) : Z := snd (CivilFromDays (Day t)).

Definition getFullYear (c : clock) (t : Z) : Z := YearFromTime (LocalTime c t).
Definition getMonth (c : clock) (t : Z) : Z := MonthFromTime (LocalTime c t).
Definition getDate (c : clock) (t : Z) : Z := DateFromTime (LocalTime c t).
Definition getTime (t : Z) : Z := t.

Definition MakeDay (year month date : Z) : Z :=
  let ym := year + month / 12 in
  let mn := month mod 12 in
  DaysFromCivil ym (mn + 1) 1 + date - 1.

(** [new Date(year, month, date)]: local midnight of that day; a year from 0
    to 99 stands for 1900 + year. *)
Definition newDate (c : clock) (year month date : Z) : Z :=
  let yr := if (0 <=? year) && (year <=? 99) then 1900 + year else year in
  UTC c (MakeDay yr month date * msPerDay).

Definition digit (n : Z) : string :=
  String (ascii_of_nat (48 + Z.to_nat (n mod 10))) EmptyString.

Fixpoint pad (width : nat) (n : Z) : string :=
  match width with
  | O => ""
  | S w => pad w (n / 10) ++ digit n
  end.

Definition isoYear (y : Z) : string :=
  if (0 <=? y) && (y <=? 9999) then pad 4 y
  else if y <? 0 then "-" ++ pad 6 (- y)
  else "+" ++ pad 6 y.

(** [Date.prototype.toISOString]. *)
Definition toISOString (t : Z) : string :=
  let '(y, m, d) := CivilFromDays (Day t) in
  let ms := TimeWithinDay t in
  isoYear y ++ "-" ++ pad 2 m ++ "-" ++ pad 2 d ++ "T" ++
  pad 2 (ms / msPerHour) ++ ":" ++ pad 2 (ms / msPerMinute mod 60) ++ ":" ++
  pad 2 (ms / 1000 mod 60) ++ "." ++ pad 3 (ms mod 1000) ++ "Z".

End JsDate.

Import JsDate.

(* ================================================================== *)
(** ** [ui/src/App.js]: [processQuery] *)
(* ================================================================== *)

Module App.

(** *** The MCP server, as [processQuery] sees it *)

(** The three tool endpoints [processQuery] posts to. *)
Inductive call : Type :=
| InterpretQuery (query : string)
| ExecuteEsQuery (index : string) (dsl : json)
| CreateKibanaLink (index_pattern : string) (time_range : json) (kql_query : string).

(** One [{key, doc_count}] bucket of a terms aggregation. *)
Record bucket : Type := mkBucket {
  key : json;
  doc_count : json
}.

(** [result.aggregations] of a search reply, in the shape Elasticsearch gives
    it; [None] is a member that is missing along the optional chain. *)
Record aggregations : Type := mkAggs {
  total_count_value : option json;        (* [total_count?.value] *)
  by_channel_buckets : option (list bucket);
  by_outcome_buckets : option (list bucket)
}.

(** What the server answers.  [None] is a call that throws: the request
    fails, or the reply lacks the [data.result] path that is read.
    [interpret_query] gives [result.structured_query], [execute_es_query]
    gives [result.aggregations] (possibly missing), [create_kibana_link]
    gives [result.kibana_link]. *)
Record server : Type := mkServer {
  interpret_query : string -> option json;
  execute_es_query : string -> json -> option (option aggregations);
  create_kibana_link : string -> json -> string -> option json
}.

(** Computations that post to the server: the log of calls made so far is
    threaded through, and [None] is a thrown error (caught by the [catch] of
    [processQuery] and thrown again as [Failed to process query]). *)
Definition io (A : Type) : Type := list call -> list call * option A.

Definition ret {A} (a : A) : io A := fun log => (log, Some a).
Definition throw {A} : io A := fun log => (log, None).
Definition bind {A B} (m : io A) (k : A -> io B) : io B :=
  fun log =>
    match m log with
    | (log', Some a) => k a log'
    | (log', None) => (log', None)
    end.
Definition post {A} (c : call) (reply : option A) : io A :=
  fun log => ((log ++ [c])%list, reply).
Definition run {A} (m : io A) : list call * option A := m [].

Notation "x <- m ;; k" := (bind m (fun x => k))
  (at level 61, m at next level, right associativity).

(** *** Helpers of [processQuery] *)

(** [parseTimeRange]: the keyword reading of a time range (declared by
    [processQuery]; [None] is its [null]). *)
Definition parseTimeRange (query : string) : option string :=
  let queryLower := toLowerCase query in
  if includes queryLower "total" || includes queryLower "all"
     || includes queryLower "overall" then None
  else if includes queryLower "24 hour" || includes queryLower "last 24"
          || includes queryLower "24h" || includes queryLower "24 hr"
  then Some "last_24h"
  else if includes queryLower "last hour" || includes queryLower "1 hour"
          || includes queryLower "hour"
  then Some "last_hour"
  else if includes queryLower "today" then Some "today"
  else Some "last_hour".

(** [startOfDay] and [endOfDay] of the [today] case. *)
Definition startOfDay (c : clock) : Z :=
  newDate c (getFullYear c (now c)) (getMonth c (now c)) (getDate c (now c)).
Definition endOfDay (c : clock) : Z :=
  newDate c (getFullYear c (now c)) (getMonth c (now c)) (getDate c (now c) + 1).

(** [getDateRangeForDSL]. *)
Definition getDateRangeForDSL (c : clock) (timeRange : json) : json :=
  let now := now c in
  if is_str timeRange "today" then
    JObj [("gte", JStr (toISOString (startOfDay c)));
          ("lt", JStr (toISOString (endOfDay c)))]
  else if is_str timeRange "last_hour" then
    let oneHourAgo := getTime now - 60 * 60 * 1000 in
    JObj [("gte", JStr (toISOString oneHourAgo));
          ("lte", JStr (toISOString now))]
  else if is_str timeRange "last_24h" then
    let twentyFourHoursAgo := getTime now - 24 * 60 * 60 * 1000 in
    JObj [("gte", JStr (toISOString twentyFourHoursAgo));
          ("lte", JStr (toISOString now))]
  else
    JObj [("gte", JStr (toISOString (getTime now - 60 * 60 * 1000)));
          ("lte", JStr (toISOString now))].

(** The two clause literals: [{"term": {[field]: value}}] and
    [{"range": {[field]: bounds}}]. *)
Definition termClause (field : string) (value : json) : json :=
  JObj [("term", JObj [(field, value)])].
Definition rangeClause (field : string) (bounds : json) : json :=
  JObj [("range", JObj [(field, bounds)])].

(** The body of the loop over [Object.entries(filters)]. *)
Definition filterClause (entry : string * json) : json :=
  let '(field, value) := entry in
  if (field =? "@timestamp")%string && typeof_object value
  then rangeClause "@timestamp" value
  else termClause field value.

(** [timeRange && timeRange !== 'null']. *)
Definition timeFilterSpecified (timeRange : option json) : bool :=
  truthy_opt timeRange && negb (is_str_opt timeRange "null").

(** [mustClauses] after both steps. *)
Definition mustClauses (c : clock) (filters : json) (timeRange : option json)
  : list json :=
  (map filterClause (entries filters) ++
   match timeRange with
   | Some tr =>
       if timeFilterSpecified timeRange
       then [rangeClause "@timestamp" (getDateRangeForDSL c tr)]
       else []
   | None => []
   end)%list.

Definition indexPatternFor (query : string) : string :=
  let q := toLowerCase query in
  if includes q "auth" || includes q "login" then "logs-auth-*"
  else if includes q "payment" then "logs-payment-*"
  else if includes q "mobile" then "logs-mobile-*"
  else "logs-*".

(** The branch taken by the [if / else if] chain on [queryType]. *)
Inductive queryKind : Type := Greeting | Help | Count | Unsupported.

Definition dispatch (queryType : json) : queryKind :=
  if is_str queryType "greeting" then Greeting
  else if is_str queryType "help" then Help
  else if is_str queryType "count" then Count
  else Unsupported.

Definition greetingAnswer : string :=
  "Hello! 👋 I'm LogWell, your log analytics assistant. I can help you analyze your banking system logs." ++
  nl ++ nl ++ "Try asking me questions like:" ++ nl ++ nl ++ "• " ++
  dquote ++ "How many failed logins were there today?" ++ dquote ++ nl ++
  "• " ++ dquote ++
  "Show me mobile authentication failures in the last 24 hours" ++ dquote ++
  nl ++ "• " ++ dquote ++ "What are the payment processing errors?" ++
  dquote ++ nl ++ nl ++ "What would you like to know about your logs?".

Definition helpAnswer : string :=
  "I'm here to help you analyze your banking system logs! 📊" ++ nl ++ nl ++
  "I can answer questions about:" ++ nl ++ nl ++
  "🔐 **Authentication & Logins**" ++ nl ++
  "• Failed/successful login attempts" ++ nl ++
  "• Mobile, online, and IVR channels" ++ nl ++
  "• Time-based analysis (today, yesterday, last 24 hours, etc.)" ++ nl ++
  nl ++ "💳 **Payment Processing**" ++ nl ++
  "• Transaction successes and failures" ++ nl ++
  "• Payment methods and channels" ++ nl ++ "• Error analysis and trends" ++
  nl ++ nl ++ "📱 **App Channels**" ++ nl ++ "• Mobile app activity" ++ nl ++
  "• Online banking usage" ++ nl ++ "• IVR system interactions" ++ nl ++
  nl ++ "💡 **Example Queries:**" ++ nl ++ "• " ++ dquote ++
  "failed logins on mobile today" ++ dquote ++ nl ++ "• " ++ dquote ++
  "total payment failures yesterday" ++ dquote ++ nl ++ "• " ++ dquote ++
  "authentication errors in last 24 hours" ++ dquote ++ nl ++ "• " ++
  dquote ++ "successful transactions by channel" ++ dquote ++ nl ++ nl ++
  "What would you like to explore?".

Definition unsupportedAnswer (description : json) : string :=
  "I understood your query as: " ++ dquote ++ toString description ++
  dquote ++ nl ++ nl ++
  "However, I can currently only handle count queries. Try asking about:" ++
  nl ++ nl ++ "• Failed logins (mobile, online, ivr)" ++ nl ++
  "• Authentication events" ++ nl ++ "• Payment processing" ++ nl ++
  "• App channel activity" ++ nl ++ nl ++ "For example: " ++ dquote ++
  "how many failed logins today" ++ dquote ++ " or " ++ dquote ++
  "show me authentication failures in last 24 hours" ++ dquote.

(** The count document. *)
Definition countDsl (must : list json) : json :=
  JObj [("query", JObj [("bool", JObj [("must", JArr must)])]);
        ("size", JNum 0);
        ("aggs", JObj [
           ("total_count", JObj [("value_count", JObj [("field", JStr "event.action")])]);
           ("by_channel", JObj [("terms", JObj [("field", JStr "app.channel")])]);
           ("by_outcome", JObj [("terms", JObj [("field", JStr "event.outcome")])])])].

(** The label of the period in the answer. *)
Definition timeDesc (timeRange : option json) : string :=
  if is_str_opt timeRange "today" then "today"
  else if is_str_opt timeRange "last_24h" then "last 24 hours"
  else if is_str_opt timeRange "last_hour" then "last hour"
  else if is_str_opt timeRange "yesterday" then "yesterday"
  else if is_str_opt timeRange "last_week" then "last week"
  else "all time".

(** The tokens [timeDesc] has a label for. *)
Definition labelled (timeRange : json) : bool :=
  is_str timeRange "today" || is_str timeRange "last_24h" ||
  is_str timeRange "last_hour" || is_str timeRange "yesterday" ||
  is_str timeRange "last_week".

Definition bucketLine (b : bucket) : string :=
  "- " ++ toString (key b) ++ ": " ++ toString (doc_count b).

Definition breakdown (title : string) (buckets : list bucket) : string :=
  match buckets with
  | [] => ""
  | _ => nl ++ nl ++ title ++ nl ++ join nl (map bucketLine buckets)
  end.

Definition opt_bind {A B} (o : option A) (f : A -> option B) : option B :=
  match o with
  | Some a => f a
  | None => None
  end.

Definition or_nil {A} (o : option (list A)) : list A :=
  match o with
  | Some l => l
  | None => []
  end.

(** The human-readable answer of a count query. *)
Definition countAnswer (description : json) (timeRange : option json)
    (aggs : option aggregations) : string :=
  let totalCount := or_else (opt_bind aggs total_count_value) (JNum 0) in
  let channels := or_nil (opt_bind aggs by_channel_buckets) in
  let outcomes := or_nil (opt_bind aggs by_outcome_buckets) in
  toString description ++ nl ++ nl ++ "**" ++ toString totalCount ++
  "** events found in the " ++ timeDesc timeRange ++ "." ++
  breakdown "Breakdown by channel:" channels ++
  breakdown "Breakdown by outcome:" outcomes.

Definition kqlAtom (entry : string * json) : string :=
  let '(field, value) := entry in
  field ++ ":" ++ dquote ++ toString value ++ dquote.

(** [kqlQuery], the filter expression of the Kibana link. *)
Definition kqlQueryOf (filters : json) : string :=
  let kqlQuery := join " AND " (map kqlAtom (entries filters)) in
  if (kqlQuery =? "")%string then "*" else kqlQuery.

(** What [processQuery] resolves to.  [dsl] is the document whose JSON text
    ([JSON.stringify] with indent 2) the reply carries. *)
Record response : Type := mkResponse {
  answer : string;
  kibanaLink : json;
  dsl : json;
  interpreted_query : json
}.

(** *** [processQuery] *)

(** The reading of the interpretation, with its defaults. *)
Definition timeRangeOf (structuredQuery : json) : option json :=
  member structuredQuery "time_range".
Definition filtersOf (structuredQuery : json) : json :=
  or_else (member structuredQuery "filters") (JObj []).
Definition queryTypeOf (structuredQuery : json) : json :=
  or_else (member structuredQuery "query_type") (JStr "count").
Definition descriptionOf (structuredQuery : json) (query : string) : json :=
  or_else (member structuredQuery "description") (JStr query).

Definition processQuery (srv : server) (c : clock) (query : string)
  : io response :=
  structuredQuery <- post (InterpretQuery query) (interpret_query srv query) ;;
  if is_null structuredQuery then throw   (* reading a member of [null] *)
  else
    let timeRange := timeRangeOf structuredQuery in
    let filters := filtersOf structuredQuery in
    let queryType := queryTypeOf structuredQuery in
    let description := descriptionOf structuredQuery query in
    let mustClauses := mustClauses c filters timeRange in
    let indexPattern := indexPatternFor query in
    match dispatch queryType with
    | Greeting =>
        ret (mkResponse greetingAnswer JNull JNull structuredQuery)
    | Help =>
        ret (mkResponse helpAnswer JNull JNull structuredQuery)
    | Count =>
        let dslQuery := countDsl mustClauses in
        aggs <- post (ExecuteEsQuery indexPattern dslQuery)
                     (execute_es_query srv indexPattern dslQuery) ;;
        let answer := countAnswer description timeRange aggs in
        let kqlQuery := kqlQueryOf filters in
        let time_range := or_else timeRange (JStr "all_time") in
        kibanaLink <- post (CreateKibanaLink indexPattern time_range kqlQuery)
                           (create_kibana_link srv indexPattern time_range kqlQuery) ;;
        ret (mkResponse answer kibanaLink dslQuery structuredQuery)
    | Unsupported =>
        ret (mkResponse (unsupportedAnswer description) JNull (JObj [])
                        structuredQuery)
    end.

(** *** Reading a clause *)

(** The bounds of the last hour, as the [last_hour] and [default] cases write
    them. *)
Definition lastHourRange (c : clock) : json :=
  JObj [("gte", JStr (toISOString (now c - 3600000)));
        ("lte", JStr (toISOString (now c)))].

Definition is_range_clause (clause : json) : bool :=
  match clause with
  | JObj [("range", JObj [_])] => true
  | _ => false
  end.

End App.

Import App.

(* ================================================================== *)
(** ** [.github/copilot-instructions.md]: field validation with suggestions *)
(* ================================================================== *)

Module FieldResolver.

(** The metadata of a schema field; [synonyms] is [None] when the key is not
    in the dict. *)
Record metadata : Type := mkMeta {
  synonyms : option (list string)
}.

(** [available_fields]: a dict, so in insertion (schema-declaration) order
    with unique keys. *)
Definition schema : Type := list (string * metadata).

(** The outcome dict: [{valid: True, field}] or [{valid: False, error}]. *)
Inductive validation : Type :=
| Valid (field : string)
| Invalid (error : string).

(** What [list(set(l))] may be: the elements of [l], each once, in an order
    the language leaves to the hashing of the strings. *)
Definition set_enumeration (list_of_set : list string -> list string) : Prop :=
  forall l, NoDup (list_of_set l) /\ forall x, In x (list_of_set l) <-> In x l.

Section Resolver.

Variable list_of_set : list string -> list string.

(** The matches of one field, as the loop body appends them. *)
Definition matches_of (target_field : string) (entry : string * metadata)
  : list string :=
  let '(field, metadata) := entry in
  ((if includes (toLowerCase field) (toLowerCase target_field)
    then [field] else []) ++
   match synonyms metadata with
   | Some syns =>
       flat_map (fun synonym =>
                   if includes (toLowerCase synonym) (toLowerCase target_field)
                   then [field] else []) syns
   | None => []
   end)%list.

(** [suggestions] as accumulated by the loop, before the duplicates go. *)
Definition collected (target_field : string) (available_fields : schema)
  : list string :=
  flat_map (matches_of target_field) available_fields.

Definition find_similar_fields (target_field : string)
    (available_fields : schema) : list string :=
  list_of_set (collected target_field available_fields).

Definition in_dict (k : string) (d : schema) : bool :=
  existsb (fun e => (fst e =? k)%string) d.

Definition validate_field_with_suggestions (field_name : string)
    (available_fields : schema) : validation :=
  if in_dict field_name available_fields then Valid field_name
  else
    let suggestions := find_similar_fields field_name available_fields in
    match suggestions with
    | _ :: _ =>
        Invalid ("field '" ++ field_name ++ "' not found—did you mean " ++
                 join ", " (firstn 3 suggestions) ++ "?")
    | [] => Invalid ("field '" ++ field_name ++ "' not found")
    end.

End Resolver.

(** Whether a field or one of its synonyms contains the name, letter case
    aside. *)
Definition field_matches (target_field : string) (entry : string * metadata)
  : bool :=
  includes (toLowerCase (fst entry)) (toLowerCase target_field) ||
  existsb (fun synonym => includes (toLowerCase synonym) (toLowerCase target_field))
          (match synonyms (snd entry) with Some l => l | None => [] end).


(** Two enumerations of a set: first occurrences in order, and the reverse. *)
Definition first_seen (l : list string) : list string :=
  rev (nodup string_dec (rev l)).
Definition last_first (l : list string) : list string :=
  rev (first_seen l).

End FieldResolver.

Import FieldResolver.

(* ================================================================== *)
(** ** Sample inputs *)
(* ================================================================== *)

Module Sample.

(** Noon UTC of 2025-10-22 on a host in UTC, and on one at UTC+05:30. *)
Definition noon : clock := mkClock 1761134400000 0.
Definition noonKolkata : clock := mkClock 1761134400000 (-330).

Definition aggs : aggregations :=
  mkAggs (Some (JNum 12))
         (Some [mkBucket (JStr "mobile") (JNum 7);
                mkBucket (JStr "online") (JNum 5)])
         (Some []).

Definition link : json := JStr "http://localhost:5601/app/discover".

(** A server that interprets every question as [sq] and answers every
    search with [aggs]. *)
Definition serverFor (sq : json) : server :=
  mkServer (fun _ => Some sq)
           (fun _ _ => Some (Some aggs))
           (fun _ _ _ => Some link).

Definition logSchema : schema :=
  [("app.channel", mkMeta (Some ["channel"; "platform"]));
   ("event.outcome", mkMeta (Some ["result"; "status"]));
   ("event.channel_id", mkMeta None)].

End Sample.

(* ================================================================== *)
(** ** [JSON.stringify] and [String.prototype.trim] *)
(* ================================================================== *)

Module JsText.

(** White space and line terminators of the ASCII range, which [trim]
    strips; the ones beyond it are outside the model. *)
Definition is_space (c : ascii) : bool :=
  let n := nat_of_ascii c in
  ((9 <=? n) && (n <=? 13) || (n =? 32))%nat.

Fixpoint trimStart (s : string) : string :=
  match s with
  | EmptyString => EmptyString
  | String c rest => if is_space c then trimStart rest else s
  end.

Fixpoint trimEnd (s : string) : string :=
  match s with
  | EmptyString => EmptyString
  | String c rest =>
      match trimEnd rest with
      | EmptyString => if is_space c then EmptyString else String c EmptyString
      | kept => String c kept
      end
  end.

Definition trim (s : string) : string := trimEnd (trimStart s).

(** A string of white space only (the empty one too). *)
Fixpoint blank (s : string) : bool :=
  match s with
  | EmptyString => true
  | String c rest => is_space c && blank rest
  end.

Definition backslash : string := String (ascii_of_nat 92) EmptyString.

Definition hexDigit (n : nat) : string :=
  String (ascii_of_nat (if (n <? 10)%nat then 48 + n else 87 + n)) EmptyString.

(** One character of [QuoteJSONString]. *)
Definition quoteChar (c : ascii) : string :=
  let n := nat_of_ascii c in
  if (n =? 8)%nat then backslash ++ "b"
  else if (n =? 9)%nat then backslash ++ "t"
  else if (n =? 10)%nat then backslash ++ "n"
  else if (n =? 12)%nat then backslash ++ "f"
  else if (n =? 13)%nat then backslash ++ "r"
  else if (n =? 34)%nat then backslash ++ dquote
  else if (n =? 92)%nat then backslash ++ backslash
  else if (n <? 32)%nat then
    backslash ++ "u00" ++ hexDigit (n / 16) ++ hexDigit (n mod 16)
  else String c EmptyString.

Fixpoint quoteBody (s : string) : string :=
  match s with
  | EmptyString => EmptyString
  | String c rest => quoteChar c ++ quoteBody rest
  end.

Definition QuoteJSONString (s : string) : string :=
  dquote ++ quoteBody s ++ dquote.

(** The [gap] of [JSON.stringify(value, null, 2)]. *)
Definition gap : string := "  ".

(** [SerializeJSONProperty] at the current [indent]. *)
Fixpoint serialize (indent : string) (v : json) : string :=
  match v with
  | JNull => "null"
  | JBool true => "true"
  | JBool false => "false"
  | JNum n => string_of_Z n
  | JStr s => QuoteJSONString s
  | JArr [] => "[]"
  | JArr items =>
      let stepback := indent in
      let indent := indent ++ gap in
      "[" ++ nl ++ indent ++
      join ("," ++ nl ++ indent) (map (serialize indent) items) ++
      nl ++ stepback ++ "]"
  | JObj [] => "{}"
  | JObj members =>
      let stepback := indent in
      let indent := indent ++ gap in
      "{" ++ nl ++ indent ++
      join ("," ++ nl ++ indent)
           (map (fun member =>
                   QuoteJSONString (fst member) ++ ": " ++
                   serialize indent (snd member)) members) ++
      nl ++ stepback ++ "}"
  end.

(** [JSON.stringify(value, null, 2)]. *)
Definition stringify (v : json) : string := serialize "" v.

End JsText.

Import JsText.

(* ================================================================== *)
(** ** [ui/src/App.js]: the chat state and [sendMessage] *)
(* ================================================================== *)

Module Chat.

(** [type] of a message: ['user'] or ['assistant']. *)
Inductive sender : Type := User | Assistant.

(** An entry of [messages].  [kibanaLink] and [dsl] are [None] on the
    messages built without these members. *)
Record message : Type := mkMessage {
  id : Z;
  type : sender;
  content : string;
  kibanaLink : option json;
  dsl : option string;
  timestamp : Z
}.

(** The three pieces of component state. *)
Record appState : Type := mkState {
  messages : list message;
  inputMessage : string;
  isLoading : bool
}.

Definition initialState : appState := mkState [] "" false.

(** The clock reads of one send, in the order they are made: [Date.now()]
    and [new Date()] of the user message, the clock of [processQuery], then
    [Date.now()] and [new Date()] of the reply. *)
Record timeline : Type := mkTimeline {
  sendNow : Z;
  sendDate : Z;
  queryClock : clock;
  replyNow : Z;
  replyDate : Z
}.

Definition apology : string :=
  "Sorry, I encountered an error processing your query. Please try again.".

(** [!inputMessage.trim() || isLoading], the guard that returns early. *)
Definition rejects (st : appState) : bool :=
  (trim (inputMessage st) =? "")%string || isLoading st.

Definition userMessage (tl : timeline) (st : appState) : message :=
  mkMessage (sendNow tl) User (inputMessage st) None None (sendDate tl).

(** The message built in the [try] block, or the one of the [catch] block
    when [processQuery] throws. *)
Definition replyMessage (tl : timeline) (outcome : option response) : message :=
  match outcome with
  | Some response =>
      mkMessage (replyNow tl + 1) Assistant (answer response)
                (Some (App.kibanaLink response))
                (Some (stringify (App.dsl response)))
                (replyDate tl)
  | None =>
      mkMessage (replyNow tl + 1) Assistant apology None None (replyDate tl)
  end.

(** [sendMessage] up to the [await]: the user message is appended, the input
    is cleared, loading is on. *)
Definition beginSend (tl : timeline) (st : appState) : appState :=
  mkState (messages st ++ [userMessage tl st])%list "" true.

(** [sendMessage] after the [await]: the reply is appended to the messages
    as they are by then, and loading is off. *)
Definition finishSend (tl : timeline) (outcome : option response)
    (st : appState) : appState :=
  mkState (messages st ++ [replyMessage tl outcome])%list (inputMessage st) false.

(** [sendMessage], with the calls it makes to the server. *)
Definition sendMessage (srv : server) (tl : timeline) (st : appState)
  : appState * list call :=
  if rejects st then (st, [])
  else
    let '(log, outcome) := run (processQuery srv (queryClock tl) (inputMessage st)) in
    (finishSend tl outcome (beginSend tl st), log).

(** [onChange] of the input: [setInputMessage(e.target.value)]. *)
Definition setInputMessage (text : string) (st : appState) : appState :=
  mkState (messages st) text (isLoading st).

(** What the render of one message shows beside its text:
    [message.kibanaLink && ...] and [message.dsl && ...]. *)
Definition showsKibanaButton (m : message) : bool := truthy_opt (kibanaLink m).
Definition showsDslDetails (m : message) : bool :=
  match dsl m with
  | Some text => negb (text =? "")%string
  | None => false
  end.

(** What a user does: type into the input, or submit the form. *)
Inductive action : Type :=
| TypeText (text : string)
| Submit (srv : server) (tl : timeline).

Definition step (st : appState) (a : action) : appState :=
  match a with
  | TypeText text => setInputMessage text st
  | Submit srv tl => fst (sendMessage srv tl st)
  end.

Definition session (actions : list action) : appState :=
  fold_left step actions initialState.

(** User and assistant messages in turn, user first. *)
Fixpoint alternates (l : list message) : bool :=
  match l with
  | [] => true
  | u :: [] => false
  | u :: a :: rest =>
      match type u, type a with
      | User, Assistant => alternates rest
      | _, _ => false
      end
  end.

End Chat.

(* ================================================================== *)
(** ** Evaluations *)
(* ================================================================== *)

Example toString_num : toString (JNum 42) = "42". Proof. reflexivity. Qed.
Example toString_neg : toString (JNum (-7)) = "-7". Proof. reflexivity. Qed.
Example toString_zero : toString (JNum 0) = "0". Proof. reflexivity. Qed.
Example toString_arr : toString (JArr [JNum 1; JNull; JStr "a"]) = "1,,a".
Proof. reflexivity. Qed.
Example includes_login : includes "failed login" "login" = true.
Proof. reflexivity. Qed.
Example includes_empty : includes "" "" = true. Proof. reflexivity. Qed.
Example lower_field : toLowerCase "App.Channel" = "app.channel".
Proof. reflexivity. Qed.

Example iso_noon : toISOString 1761134400000 = "2025-10-22T12:00:00.000Z".
Proof. reflexivity. Qed.
Example iso_epoch : toISOString 0 = "1970-01-01T00:00:00.000Z".
Proof. reflexivity. Qed.
Example iso_before_epoch : toISOString (-1) = "1969-12-31T23:59:59.999Z".
Proof. reflexivity. Qed.
Example iso_leap_day : toISOString 951782400123 = "2000-02-29T00:00:00.123Z".
Proof. reflexivity. Qed.
Example newDate_utc : newDate (mkClock 0 0) 2025 9 22 = 1761091200000.
Proof. reflexivity. Qed.
Example newDate_overflow :
  newDate (mkClock 0 0) 2025 9 32 = newDate (mkClock 0 0) 2025 10 1.
Proof. reflexivity. Qed.
Example newDate_offset :
  newDate (mkClock 0 (-330)) 2025 9 22 = 1761091200000 - 330 * 60000.
Proof. reflexivity. Qed.
Example local_fields :
  let c := mkClock 1761134400000 0 in
  (getFullYear c (now c), getMonth c (now c), getDate c (now c)) = (2025, 9, 22).
Proof. reflexivity. Qed.

Example first_seen_ex : first_seen ["b"; "a"; "b"; "c"; "a"] = ["b"; "a"; "c"].
Proof. reflexivity. Qed.

(* ================================================================== *)
(** ** Calendar facts *)
(* ================================================================== *)

Lemma yoe_bounds doe :
  0 <= doe <= 146096 ->
  let yoe := (doe - doe / 1460 + doe / 36524 - doe / 146096) / 365 in
  0 <= yoe <= 399 /\ 0 <= doe - (365 * yoe + yoe / 4 - yoe / 100) <= 365.
Proof.
  intros H yoe. subst yoe. Z.div_mod_to_equations; lia.
Qed.

Lemma mp_bounds doy :
  0 <= doy <= 365 ->
  let mp := (5 * doy + 2) / 153 in
  0 <= mp <= 11 /\ 1 <= doy - (153 * mp + 2) / 5 + 1 <= 31.
Proof.
  intros H mp. subst mp. Z.div_mod_to_equations; lia.
Qed.

(** The day number of the date of a day is that day. *)
Lemma DaysFromCivil_CivilFromDays n :
  let '(y, m, d) := CivilFromDays n in
  DaysFromCivil y m d = n /\ 1 <= m <= 12 /\ 1 <= d <= 31.
Proof.
  unfold CivilFromDays.
  set (z := n + 719468).
  set (era := z / 146097).
  set (doe := z - era * 146097).
  assert (Hdoe : 0 <= doe <= 146096)
    by (subst doe era; Z.div_mod_to_equations; lia).
  pose proof (yoe_bounds doe Hdoe) as Hy. cbv zeta in Hy.
  set (yoe := (doe - doe / 1460 + doe / 36524 - doe / 146096) / 365) in *.
  destruct Hy as [Hyoe Hdoy].
  set (doy := doe - (365 * yoe + yoe / 4 - yoe / 100)) in *.
  pose proof (mp_bounds doy Hdoy) as Hm. cbv zeta in Hm.
  set (mp := (5 * doy + 2) / 153) in *.
  destruct Hm as [Hmp Hd].
  set (d := doy - (153 * mp + 2) / 5 + 1) in *.
  assert (Hera : forall k, 0 <= k <= 399 -> (k + era * 400) / 400 = era).
  { intros k Hk. rewrite Z.div_add by lia. rewrite Z.div_small by lia. lia. }
  unfold DaysFromCivil.
  destruct (mp <? 10) eqn:E; [apply Z.ltb_lt in E | apply Z.ltb_ge in E].
  - replace (mp + 3 <=? 2) with false by (symmetry; apply Z.leb_gt; lia).
    replace (2 <? mp + 3) with true by (symmetry; apply Z.ltb_lt; lia).
    rewrite Hera by lia.
    replace (mp + 3 - 3) with mp by lia.
    replace (yoe + era * 400 - era * 400) with yoe by lia.
    subst d doy doe z. lia.
  - replace (mp - 9 <=? 2) with true by (symmetry; apply Z.leb_le; lia).
    replace (2 <? mp - 9) with false by (symmetry; apply Z.ltb_ge; lia).
    replace (yoe + era * 400 + 1 - 1) with (yoe + era * 400) by lia.
    rewrite Hera by lia.
    replace (mp - 9 + 9) with mp by lia.
    replace (yoe + era * 400 - era * 400) with yoe by lia.
    subst d doy doe z. lia.
Qed.

Lemma MakeDay_next year month date :
  MakeDay year month (date + 1) = MakeDay year month date + 1.
Proof. unfold MakeDay. lia. Qed.

Lemma newDate_next c year month date :
  newDate c year month (date + 1) = newDate c year month date + msPerDay.
Proof. unfold newDate, UTC. rewrite MakeDay_next. lia. Qed.

(** [MakeDay] of the calendar fields of a day gives the day back. *)
Lemma MakeDay_fields t :
  MakeDay (YearFromTime t) (MonthFromTime t) (DateFromTime t) = Day t.
Proof.
  unfold YearFromTime, MonthFromTime, DateFromTime, MakeDay.
  pose proof (DaysFromCivil_CivilFromDays (Day t)) as H.
  destruct (CivilFromDays (Day t)) as [[y m] d]. cbn [fst snd].
  destruct H as (H & Hm & _).
  replace ((m - 1) / 12) with 0 by (symmetry; apply Z.div_small; lia).
  rewrite Z.mod_small by lia.
  replace (y + 0) with y by lia. replace (m - 1 + 1) with m by lia.
  rewrite <- H. unfold DaysFromCivil. lia.
Qed.

Lemma endOfDay_startOfDay c : endOfDay c = startOfDay c + msPerDay.
Proof. unfold endOfDay, startOfDay. apply newDate_next. Qed.

(** Outside the two-digit years, [startOfDay] is the local midnight that
    begins the day of [now]. *)
Lemma startOfDay_midnight c :
  getFullYear c (now c) < 0 \/ 99 < getFullYear c (now c) ->
  startOfDay c = UTC c (Day (LocalTime c (now c)) * msPerDay).
Proof.
  intros Hy. unfold startOfDay, newDate.
  replace ((0 <=? getFullYear c (now c)) && (getFullYear c (now c) <=? 99))
    with false.
  - unfold getFullYear, getMonth, getDate. now rewrite MakeDay_fields.
  - symmetry. apply andb_false_iff.
    destruct Hy; [left; apply Z.leb_gt | right; apply Z.leb_gt]; lia.
Qed.

Lemma startOfDay_spans_now c :
  getFullYear c (now c) < 0 \/ 99 < getFullYear c (now c) ->
  startOfDay c <= now c < endOfDay c.
Proof.
  intros Hy. rewrite endOfDay_startOfDay, (startOfDay_midnight c Hy).
  unfold UTC, LocalTime, Day, msPerDay.
  pose proof (Z.mod_pos_bound (now c - tzOffset c * msPerMinute) 86400000).
  pose proof (Z.div_mod (now c - tzOffset c * msPerMinute) 86400000).
  lia.
Qed.

(* ================================================================== *)
(** ** Strings and lists *)
(* ================================================================== *)

Lemma length_append (s1 s2 : string) :
  String.length (s1 ++ s2) = (String.length s1 + String.length s2)%nat.
Proof. induction s1 as [|a s1 IH]; cbn; [reflexivity | now rewrite IH]. Qed.

Lemma join_length_head sep x l :
  (String.length x <= String.length (join sep (x :: l)))%nat.
Proof.
  destruct l as [|y l]; cbn [join]; [lia|].
  rewrite length_append. lia.
Qed.

(* ================================================================== *)
(** ** The runs of [processQuery] *)
(* ================================================================== *)

Lemma getDateRangeForDSL_default c tr :
  is_str tr "today" = false -> is_str tr "last_24h" = false ->
  getDateRangeForDSL c tr = lastHourRange c.
Proof.
  intros H1 H2. unfold getDateRangeForDSL. rewrite H1, H2.
  destruct (is_str tr "last_hour"); reflexivity.
Qed.

(** A count request posts the document built from [mustClauses] right after
    the interpretation, whatever the server then answers. *)
Lemma processQuery_count_calls srv c query sq :
  interpret_query srv query = Some sq ->
  is_null sq = false ->
  dispatch (queryTypeOf sq) = Count ->
  exists rest,
    fst (run (processQuery srv c query)) =
    InterpretQuery query ::
    ExecuteEsQuery (indexPatternFor query)
      (countDsl (mustClauses c (filtersOf sq) (timeRangeOf sq))) :: rest.
Proof.
  intros Hi Hn Hd. unfold run, processQuery, bind, post.
  rewrite Hi. cbn [app]. rewrite Hn, Hd.
  destruct (execute_es_query srv _ _) as [aggs|].
  - destruct (create_kibana_link srv _ _ _) as [link|]; eexists; reflexivity.
  - eexists; reflexivity.
Qed.

(** A count request the server answers throughout. *)
Lemma processQuery_count_ok srv c query sq aggs link :
  interpret_query srv query = Some sq ->
  is_null sq = false ->
  dispatch (queryTypeOf sq) = Count ->
  execute_es_query srv (indexPatternFor query)
    (countDsl (mustClauses c (filtersOf sq) (timeRangeOf sq))) = Some aggs ->
  create_kibana_link srv (indexPatternFor query)
    (or_else (timeRangeOf sq) (JStr "all_time")) (kqlQueryOf (filtersOf sq))
    = Some link ->
  run (processQuery srv c query) =
  ([InterpretQuery query;
    ExecuteEsQuery (indexPatternFor query)
      (countDsl (mustClauses c (filtersOf sq) (timeRangeOf sq)));
    CreateKibanaLink (indexPatternFor query)
      (or_else (timeRangeOf sq) (JStr "all_time")) (kqlQueryOf (filtersOf sq))],
   Some (mkResponse (countAnswer (descriptionOf sq query) (timeRangeOf sq) aggs)
           link
           (countDsl (mustClauses c (filtersOf sq) (timeRangeOf sq)))
           sq)).
Proof.
  intros Hi Hn Hd He Hk. unfold run, processQuery, bind, post.
  rewrite Hi. cbn [app]. rewrite Hn, Hd, He. cbn [app]. rewrite Hk.
  reflexivity.
Qed.

(* ================================================================== *)
(** ** Time Range Resolver *)
(* ================================================================== *)

(** C3 (the code at the token [yesterday]).  [getDateRangeForDSL] has no case
    for [yesterday]: at every instant it answers with the bounds of the last
    hour, inclusive at [now], and not with the previous calendar day; at noon
    UTC of 2025-10-22 that is 11:00 to 12:00 of the same day.  The label of
    the answer, [timeDesc], has a case for it. *)
Theorem yesterday_resolves_to_last_hour :
  (forall c, getDateRangeForDSL c (JStr "yesterday") = lastHourRange c) /\
  getDateRangeForDSL (mkClock 1761134400000 0) (JStr "yesterday") =
    JObj [("gte", JStr "2025-10-22T11:00:00.000Z");
          ("lte", JStr "2025-10-22T12:00:00.000Z")] /\
  (forall upper,
     getDateRangeForDSL (mkClock 1761134400000 0) (JStr "yesterday") <>
     JObj [("gte", JStr (toISOString (startOfDay (mkClock 1761134400000 0) - msPerDay)));
           (upper, JStr (toISOString (startOfDay (mkClock 1761134400000 0))))]) /\
  timeDesc (Some (JStr "yesterday")) = "yesterday".
Proof.
  split; [|split; [|split]].
  - intros c. apply getDateRangeForDSL_default; reflexivity.
  - vm_compute. reflexivity.
  - intros upper. vm_compute. intros H. discriminate H.
  - reflexivity.
Qed.

(** C10.  The upper bound of the resolved range is exclusive for [today]
    ([lt], at [endOfDay], one day after [startOfDay]: the local midnight that
    ends the day of [now]) and inclusive for [last_hour], [last_24h] and every
    other token ([lte], at [now]). *)
Theorem upper_bound_inclusivity_by_token (c : clock) :
  (getDateRangeForDSL c (JStr "today") =
     JObj [("gte", JStr (toISOString (startOfDay c)));
           ("lt", JStr (toISOString (endOfDay c)))] /\
   endOfDay c = startOfDay c + msPerDay /\
   (getFullYear c (now c) < 0 \/ 99 < getFullYear c (now c) ->
    LocalTime c (endOfDay c) = (Day (LocalTime c (now c)) + 1) * msPerDay /\
    now c < endOfDay c)) /\
  getDateRangeForDSL c (JStr "last_hour") =
     JObj [("gte", JStr (toISOString (now c - 3600000)));
           ("lte", JStr (toISOString (now c)))] /\
  getDateRangeForDSL c (JStr "last_24h") =
     JObj [("gte", JStr (toISOString (now c - 86400000)));
           ("lte", JStr (toISOString (now c)))] /\
  (forall tr,
     is_str tr "today" = false -> is_str tr "last_hour" = false ->
     is_str tr "last_24h" = false ->
     getDateRangeForDSL c tr =
     JObj [("gte", JStr (toISOString (now c - 3600000)));
           ("lte", JStr (toISOString (now c)))]).
Proof.
  split; [split; [reflexivity | split] | split; [reflexivity | split]].
  - apply endOfDay_startOfDay.
  - intros Hy. split.
    + rewrite endOfDay_startOfDay, (startOfDay_midnight c Hy).
      unfold LocalTime, UTC. lia.
    + apply (startOfDay_spans_now c Hy).
  - reflexivity.
  - intros tr H1 _ H3. apply getDateRangeForDSL_default; assumption.
Qed.

Lemma upper_bound_inclusivity_by_token_witness :
  let c := Sample.noonKolkata in
  (getFullYear c (now c) < 0 \/ 99 < getFullYear c (now c)) /\
  now c < endOfDay c /\
  getDateRangeForDSL c (JStr "today") =
    JObj [("gte", JStr "2025-10-21T18:30:00.000Z");
          ("lt", JStr "2025-10-22T18:30:00.000Z")].
Proof.
  intros c.
  assert (Hy : getFullYear c (now c) < 0 \/ 99 < getFullYear c (now c))
    by (right; vm_compute; reflexivity).
  split; [exact Hy | split].
  - exact (proj2 (proj2 (proj2 (proj1 (upper_bound_inclusivity_by_token c))) Hy)).
  - rewrite (proj1 (proj1 (upper_bound_inclusivity_by_token c))).
    vm_compute. reflexivity.
Defined.



(* ================================================================== *)
(** ** Classifier adapter and dispatch *)
(* ================================================================== *)

Lemma dispatch_cases queryType :
  dispatch queryType =
  if is_str queryType "greeting" then Greeting
  else if is_str queryType "help" then Help
  else if is_str queryType "count" then Count
  else Unsupported.
Proof. reflexivity. Qed.

(** C2, as the code has it.  A [filters] member that is missing (or falsy)
    becomes the empty mapping; a [description] that is missing or the empty
    string (or otherwise falsy) falls back to the raw question, while any
    other string, one of spaces only too, is kept; a [query_type] that is
    missing or empty (or otherwise falsy) is read as [count]; [count],
    [greeting] and [help] are taken as they are; every other truthy
    [query_type] is handled as unsupported. *)
Theorem adapter_normalization (sq : json) (query : string) :
  (truthy_opt (member sq "filters") = false -> filtersOf sq = JObj []) /\
  (truthy_opt (member sq "description") = false ->
   descriptionOf sq query = JStr query) /\
  (forall s, s <> "" -> member sq "description" = Some (JStr s) ->
   descriptionOf sq query = JStr s) /\
  (truthy_opt (member sq "query_type") = false ->
   queryTypeOf sq = JStr "count" /\ dispatch (queryTypeOf sq) = Count) /\
  (member sq "query_type" = Some (JStr "count") ->
   dispatch (queryTypeOf sq) = Count) /\
  (member sq "query_type" = Some (JStr "greeting") ->
   dispatch (queryTypeOf sq) = Greeting) /\
  (member sq "query_type" = Some (JStr "help") ->
   dispatch (queryTypeOf sq) = Help) /\
  (forall v, member sq "query_type" = Some v -> truthy v = true ->
   v <> JStr "count" -> v <> JStr "greeting" -> v <> JStr "help" ->
   dispatch (queryTypeOf sq) = Unsupported).
Proof.
  assert (Hfalsy : forall o d, truthy_opt o = false -> or_else o d = d).
  { intros [v|] d H; cbn in *; [now rewrite H | reflexivity]. }
  unfold filtersOf, descriptionOf, queryTypeOf.
  split; [now apply Hfalsy|].
  split; [now apply Hfalsy|].
  split.
  { intros s Hs ->. cbn. apply String.eqb_neq in Hs. now rewrite Hs. }
  split.
  { intros H. rewrite (Hfalsy _ _ H). split; reflexivity. }
  split; [intros ->; reflexivity|].
  split; [intros ->; reflexivity|].
  split; [intros ->; reflexivity|].
  intros v -> Ht Hc Hg Hh. cbn [or_else]. rewrite Ht.
  rewrite dispatch_cases.
  assert (Hne : forall lit, v <> JStr lit -> is_str v lit = false).
  { intros lit Hv. destruct v; try reflexivity. cbn.
    apply String.eqb_neq. congruence. }
  now rewrite (Hne _ Hg), (Hne _ Hh), (Hne _ Hc).
Qed.

Lemma adapter_normalization_witness :
  let sq := JObj [("query_type", JStr "list"); ("description", JStr " ")] in
  filtersOf sq = JObj [] /\
  descriptionOf sq "how many logins" = JStr " " /\
  dispatch (queryTypeOf sq) = Unsupported /\
  descriptionOf (JObj [("description", JStr "")]) "how many logins" =
    JStr "how many logins" /\
  dispatch (queryTypeOf (JObj [])) = Count /\
  dispatch (queryTypeOf (JObj [("query_type", JStr "help")])) = Help.
Proof.
  intros sq.
  pose proof (adapter_normalization sq "how many logins")
    as (Hf & _ & Hd & _ & _ & _ & _ & Hu).
  pose proof (adapter_normalization (JObj [("description", JStr "")])
                "how many logins") as (_ & Hd0 & _).
  pose proof (adapter_normalization (JObj []) "how many logins")
    as (_ & _ & _ & Hq & _).
  pose proof (adapter_normalization (JObj [("query_type", JStr "help")])
                "how many logins") as (_ & _ & _ & _ & _ & _ & Hh & _).
  split; [apply Hf; reflexivity|].
  split; [apply (Hd " "); [discriminate | reflexivity]|].
  split; [apply (Hu (JStr "list")); [reflexivity | reflexivity | discriminate ..]|].
  split; [apply Hd0; reflexivity|].
  split; [apply Hq; reflexivity|].
  apply Hh; reflexivity.
Defined.

(** C2 fails as stated: an interpretation without [query_type] is not mapped
    to unsupported, it is run as a count query and reaches the search engine;
    and a description of spaces only does not fall back to the question. *)
Lemma absent_query_type_is_count :
  let sq := JObj [("description", JStr " ")] in
  member sq "query_type" = None /\
  dispatch (queryTypeOf sq) = Count /\
  dispatch (queryTypeOf sq) <> Unsupported /\
  descriptionOf sq "how many logins" <> JStr "how many logins".
Proof.
  intros sq. repeat split; try reflexivity; vm_compute; discriminate.
Qed.

(* ================================================================== *)
(** ** Orchestration *)
(* ================================================================== *)



(* ================================================================== *)
(** ** Deep-link filter expression *)
(* ================================================================== *)

Lemma kqlAtom_length entry : (3 <= String.length (kqlAtom entry))%nat.
Proof.
  destruct entry as [field value]. unfold kqlAtom, dquote.
  rewrite !length_append. cbn [String.length]. lia.
Qed.

Lemma kql_join_length entry rest :
  (3 <= String.length (join " AND " (map kqlAtom (entry :: rest))))%nat.
Proof.
  cbn [map].
  pose proof (join_length_head " AND " (kqlAtom entry) (map kqlAtom rest)).
  pose proof (kqlAtom_length entry). lia.
Qed.

(** C8.  The filter expression of the link is the atoms [field:"value"] of
    the filters, one per filter and in their order, joined with [ AND ]; it
    is [*] when there is no filter, and only then; and it is the expression a
    count request sends for its link. *)
Theorem kql_conjunction_wildcard_iff_empty (fs : list (string * json)) :
  kqlQueryOf (JObj fs) =
    match fs with
    | [] => "*"
    | _ => join " AND " (map kqlAtom fs)
    end /\
  (forall field value,
     kqlAtom (field, value) = field ++ ":" ++ dquote ++ toString value ++ dquote) /\
  (kqlQueryOf (JObj fs) = "*" <-> fs = []) /\
  (forall srv c query sq aggs link,
     interpret_query srv query = Some sq ->
     is_null sq = false ->
     dispatch (queryTypeOf sq) = Count ->
     filtersOf sq = JObj fs ->
     execute_es_query srv (indexPatternFor query)
       (countDsl (mustClauses c (filtersOf sq) (timeRangeOf sq))) = Some aggs ->
     create_kibana_link srv (indexPatternFor query)
       (or_else (timeRangeOf sq) (JStr "all_time")) (kqlQueryOf (JObj fs))
       = Some link ->
     In (CreateKibanaLink (indexPatternFor query)
           (or_else (timeRangeOf sq) (JStr "all_time")) (kqlQueryOf (JObj fs)))
        (fst (run (processQuery srv c query)))).
Proof.
  assert (Hq : kqlQueryOf (JObj fs) =
               match fs with [] => "*" | _ => join " AND " (map kqlAtom fs) end).
  { unfold kqlQueryOf. cbn [entries]. destruct fs as [|e fs]; [reflexivity|].
    pose proof (kql_join_length e fs) as Hl.
    destruct (String.eqb_spec (join " AND " (map kqlAtom (e :: fs))) "") as [E|E];
      [|reflexivity].
    rewrite E in Hl. cbn in Hl. lia. }
  split; [exact Hq | split; [reflexivity | split]].
  - rewrite Hq. split.
    + destruct fs as [|e fs]; [reflexivity|]. intros E.
      pose proof (kql_join_length e fs) as Hl. rewrite E in Hl. cbn in Hl. lia.
    + intros ->. reflexivity.
  - intros srv c query sq aggs link Hi Hn Hd Hf He Hk.
    rewrite <- Hf in *.
    rewrite (processQuery_count_ok srv c query sq aggs link Hi Hn Hd He Hk).
    cbn [fst]. right. right. left. reflexivity.
Qed.

Lemma kql_conjunction_wildcard_iff_empty_witness :
  let fs := [("event.outcome", JStr "failure"); ("app.channel", JStr "mobile")] in
  let sq := JObj [("query_type", JStr "count"); ("time_range", JStr "today");
                  ("filters", JObj fs)] in
  kqlQueryOf (JObj fs) <> "*" /\
  In (CreateKibanaLink "logs-auth-*" (JStr "today")
        ("event.outcome:" ++ dquote ++ "failure" ++ dquote ++ " AND " ++
         "app.channel:" ++ dquote ++ "mobile" ++ dquote))
     (fst (run (processQuery (Sample.serverFor sq) Sample.noon
                  "failed logins on mobile today"))).
Proof.
  intros fs sq.
  pose proof (kql_conjunction_wildcard_iff_empty fs) as (_ & _ & Hiff & Hrun).
  split.
  - intros E. apply Hiff in E. discriminate E.
  - exact (Hrun (Sample.serverFor sq) Sample.noon
             "failed logins on mobile today" sq (Some Sample.aggs) Sample.link
             eq_refl eq_refl eq_refl eq_refl eq_refl eq_refl).
Defined.

(* ================================================================== *)
(** ** Must clauses *)
(* ================================================================== *)

Lemma mustClauses_unspecified c filters timeRange :
  timeFilterSpecified timeRange = false ->
  mustClauses c filters timeRange = map filterClause (entries filters).
Proof.
  intros H. unfold mustClauses. rewrite H.
  destruct timeRange; now rewrite app_nil_r.
Qed.

Lemma mustClauses_specified c filters tr :
  timeFilterSpecified (Some tr) = true ->
  mustClauses c filters (Some tr) =
  (map filterClause (entries filters) ++
   [rangeClause "@timestamp" (getDateRangeForDSL c tr)])%list.
Proof. intros H. unfold mustClauses. now rewrite H. Qed.

(** C5 fails as stated: a filter on a field other than [@timestamp] whose
    value is a [{gte}] object becomes a term clause, not a range clause, and
    goes to the search engine as such. *)
Lemma object_filter_off_timestamp_is_term :
  let bounds := JObj [("gte", JNum 100)] in
  let sq := JObj [("query_type", JStr "count");
                  ("filters", JObj [("amount", bounds)])] in
  filterClause ("amount", bounds) = termClause "amount" bounds /\
  is_range_clause (filterClause ("amount", bounds)) = false /\
  fst (run (processQuery (Sample.serverFor sq) Sample.noon "large payments")) =
    [InterpretQuery "large payments";
     ExecuteEsQuery "logs-payment-*" (countDsl [termClause "amount" bounds]);
     CreateKibanaLink "logs-payment-*" (JStr "all_time")
       ("amount:" ++ dquote ++ "[object Object]" ++ dquote)].
Proof. intros bounds sq. repeat split. Qed.

(** C5, as the code has it.  The [must] clauses are one clause per filter, in
    filter order, then one range clause on [@timestamp] for the resolved time
    range when a token is given.  A filter with a scalar value becomes a term
    clause; a filter on [@timestamp] whose value is an object becomes a range
    clause on [@timestamp]; a filter on any other field becomes a term clause
    whatever its value.  A count request posts the document with exactly
    these clauses. *)
Theorem must_clauses_shape (c : clock) (filters : json) (timeRange : option json) :
  (forall field value,
     (typeof_object value = false ->
      filterClause (field, value) = termClause field value) /\
     (field <> "@timestamp" ->
      filterClause (field, value) = termClause field value) /\
     (typeof_object value = true ->
      filterClause ("@timestamp", value) = rangeClause "@timestamp" value)) /\
  (timeFilterSpecified timeRange = false ->
   mustClauses c filters timeRange = map filterClause (entries filters)) /\
  (forall tr, timeRange = Some tr -> timeFilterSpecified (Some tr) = true ->
   mustClauses c filters timeRange =
   (map filterClause (entries filters) ++
    [rangeClause "@timestamp" (getDateRangeForDSL c tr)])%list) /\
  (forall srv query sq,
     interpret_query srv query = Some sq ->
     is_null sq = false ->
     dispatch (queryTypeOf sq) = Count ->
     filtersOf sq = filters -> timeRangeOf sq = timeRange ->
     exists rest,
       fst (run (processQuery srv c query)) =
       InterpretQuery query ::
       ExecuteEsQuery (indexPatternFor query)
         (countDsl (mustClauses c filters timeRange)) :: rest).
Proof.
  split; [|split; [|split]].
  - intros field value. unfold filterClause. split; [|split].
    + intros ->. now rewrite andb_false_r.
    + intros H. apply String.eqb_neq in H. now rewrite H.
    + intros ->. reflexivity.
  - apply mustClauses_unspecified.
  - intros tr -> H. now apply mustClauses_specified.
  - intros srv query sq Hi Hn Hd <- <-. now apply processQuery_count_calls.
Qed.

Lemma must_clauses_shape_witness :
  let filters := JObj [("event.outcome", JStr "failure");
                       ("@timestamp", JObj [("gte", JStr "now-7d")]);
                       ("amount", JObj [("gte", JNum 100)])] in
  mustClauses Sample.noon filters (Some (JStr "today")) =
    [termClause "event.outcome" (JStr "failure");
     rangeClause "@timestamp" (JObj [("gte", JStr "now-7d")]);
     termClause "amount" (JObj [("gte", JNum 100)]);
     rangeClause "@timestamp"
       (JObj [("gte", JStr "2025-10-22T00:00:00.000Z");
              ("lt", JStr "2025-10-23T00:00:00.000Z")])] /\
  mustClauses Sample.noon filters None =
    [termClause "event.outcome" (JStr "failure");
     rangeClause "@timestamp" (JObj [("gte", JStr "now-7d")]);
     termClause "amount" (JObj [("gte", JNum 100)])] /\
  filterClause ("event.outcome", JStr "failure") =
    termClause "event.outcome" (JStr "failure") /\
  (exists rest,
     fst (run (processQuery
                 (Sample.serverFor
                    (JObj [("filters", filters); ("time_range", JStr "today")]))
                 Sample.noon "failures")) =
     InterpretQuery "failures" ::
     ExecuteEsQuery "logs-*"
       (countDsl (mustClauses Sample.noon filters (Some (JStr "today")))) :: rest).
Proof.
  intros filters.
  pose proof (must_clauses_shape Sample.noon filters (Some (JStr "today")))
    as (Hc & _ & Hs & Hr).
  pose proof (must_clauses_shape Sample.noon filters None) as (_ & Hn & _).
  split; [|split; [|split]].
  - rewrite (Hs (JStr "today") eq_refl eq_refl). vm_compute. reflexivity.
  - rewrite (Hn eq_refl). reflexivity.
  - apply (proj1 (Hc "event.outcome" (JStr "failure"))). reflexivity.
  - exact (Hr (Sample.serverFor
                 (JObj [("filters", filters); ("time_range", JStr "today")]))
              "failures" _ eq_refl eq_refl eq_refl eq_refl eq_refl).
Defined.

(* ================================================================== *)
(** ** Field validation in the pipeline *)
(* ================================================================== *)

(** C1 fails as stated: the pipeline consults no schema.  A filter key that
    the field validation finds neither in the schema nor similar to anything
    in it is put into the document, the search and the link calls are made
    with it, and the request succeeds. *)
Lemma unknown_filter_key_reaches_search :
  let sq := JObj [("query_type", JStr "count");
                  ("filters", JObj [("bogus_field", JStr "x")])] in
  validate_field_with_suggestions first_seen "bogus_field" Sample.logSchema =
    Invalid "field 'bogus_field' not found" /\
  run (processQuery (Sample.serverFor sq) Sample.noon "how many events") =
    ([InterpretQuery "how many events";
      ExecuteEsQuery "logs-*" (countDsl [termClause "bogus_field" (JStr "x")]);
      CreateKibanaLink "logs-*" (JStr "all_time")
        ("bogus_field:" ++ dquote ++ "x" ++ dquote)],
     Some (mkResponse
             (countAnswer (JStr "how many events") None (Some Sample.aggs))
             Sample.link
             (countDsl [termClause "bogus_field" (JStr "x")])
             sq)).
Proof. intros sq. split; reflexivity. Qed.

(** C1, as the code has it.  For every count request, each filter key of the
    interpretation goes into the document as it is -- no key is checked
    against a schema, none aborts the request -- and the search call with
    that document is the first call after the interpretation. *)
Theorem filter_keys_reach_document
    (srv : server) (c : clock) (query : string) (sq : json) :
  interpret_query srv query = Some sq ->
  is_null sq = false ->
  dispatch (queryTypeOf sq) = Count ->
  exists must rest,
    fst (run (processQuery srv c query)) =
      InterpretQuery query ::
      ExecuteEsQuery (indexPatternFor query) (countDsl must) :: rest /\
    (forall field value,
       In (field, value) (entries (filtersOf sq)) ->
       In (filterClause (field, value)) must /\
       (filterClause (field, value) = termClause field value \/
        filterClause (field, value) = rangeClause field value)).
Proof.
  intros Hi Hn Hd.
  destruct (processQuery_count_calls srv c query sq Hi Hn Hd) as [rest Hr].
  exists (mustClauses c (filtersOf sq) (timeRangeOf sq)), rest.
  split; [exact Hr|].
  intros field value Hin. split.
  - unfold mustClauses. apply in_or_app. left.
    apply in_map_iff. exists (field, value). split; [reflexivity | exact Hin].
  - unfold filterClause.
    destruct (String.eqb_spec field "@timestamp") as [-> | _];
      [destruct (typeof_object value)|]; cbn; auto.
Qed.

Lemma filter_keys_reach_document_witness :
  exists must rest,
    fst (run (processQuery
                (Sample.serverFor
                   (JObj [("filters", JObj [("bogus_field", JStr "x")])]))
                Sample.noon "how many events")) =
      InterpretQuery "how many events" ::
      ExecuteEsQuery "logs-*" (countDsl must) :: rest /\
    In (termClause "bogus_field" (JStr "x")) must.
Proof.
  destruct (filter_keys_reach_document
              (Sample.serverFor
                 (JObj [("filters", JObj [("bogus_field", JStr "x")])]))
              Sample.noon "how many events" _ eq_refl eq_refl eq_refl)
    as (must & rest & Hr & Hin).
  exists must, rest. split; [exact Hr|].
  apply (Hin "bogus_field" (JStr "x")). left. reflexivity.
Defined.

(* ================================================================== *)
(** ** Label of the period against the bound applied *)
(* ================================================================== *)

Lemma timeDesc_unlabelled tr :
  labelled tr = false -> timeDesc (Some tr) = "all time".
Proof.
  unfold labelled, timeDesc. cbn [is_str_opt]. intros H.
  repeat (apply orb_false_iff in H; destruct H as [H ?]).
  now repeat match goal with E : is_str _ _ = false |- _ => rewrite E; clear E end.
Qed.

(** C9 fails as stated: the string ['null'] is a token outside the label set,
    and so is a missing token; the answer says [all time] for them, and the
    document has no range clause, so label and bound agree. *)
Lemma null_token_all_time_without_range :
  let sq := JObj [("query_type", JStr "count"); ("time_range", JStr "null")] in
  labelled (JStr "null") = false /\
  timeDesc (Some (JStr "null")) = "all time" /\
  timeDesc None = "all time" /\
  run (processQuery (Sample.serverFor sq) Sample.noon "how many events") =
    ([InterpretQuery "how many events";
      ExecuteEsQuery "logs-*" (countDsl []);
      CreateKibanaLink "logs-*" (JStr "null") "*"],
     Some (mkResponse
             ("how many events" ++ nl ++ nl ++
              "**12** events found in the all time." ++ nl ++ nl ++
              "Breakdown by channel:" ++ nl ++
              "- mobile: 7" ++ nl ++ "- online: 5")
             Sample.link (countDsl []) sq)).
Proof. intros sq. repeat split. Qed.

(** C9, as the code has it.  For every token given -- truthy and not the
    string ['null'] -- that is outside the label set, the answer of a count
    request says [all time] while the last [must] clause of its document
    bounds [@timestamp] to the hour before [now]. *)
Theorem unlabelled_token_all_time_but_last_hour
    (srv : server) (c : clock) (query : string) (sq tr : json)
    (aggs : option aggregations) (link : json) :
  interpret_query srv query = Some sq ->
  is_null sq = false ->
  dispatch (queryTypeOf sq) = Count ->
  timeRangeOf sq = Some tr ->
  truthy tr = true ->
  is_str tr "null" = false ->
  labelled tr = false ->
  execute_es_query srv (indexPatternFor query)
    (countDsl (map filterClause (entries (filtersOf sq)) ++
               [rangeClause "@timestamp" (lastHourRange c)])) = Some aggs ->
  create_kibana_link srv (indexPatternFor query) tr (kqlQueryOf (filtersOf sq))
    = Some link ->
  exists r,
    snd (run (processQuery srv c query)) = Some r /\
    dsl r = countDsl (map filterClause (entries (filtersOf sq)) ++
                      [rangeClause "@timestamp" (lastHourRange c)]) /\
    In (ExecuteEsQuery (indexPatternFor query) (dsl r))
       (fst (run (processQuery srv c query))) /\
    answer r =
      toString (descriptionOf sq query) ++ nl ++ nl ++ "**" ++
      toString (or_else (opt_bind aggs total_count_value) (JNum 0)) ++
      "** events found in the " ++ "all time" ++ "." ++
      breakdown "Breakdown by channel:" (or_nil (opt_bind aggs by_channel_buckets)) ++
      breakdown "Breakdown by outcome:" (or_nil (opt_bind aggs by_outcome_buckets)).
Proof.
  intros Hi Hn Hd Ht Htruthy Hnull Hlab He Hk.
  assert (Hm : mustClauses c (filtersOf sq) (timeRangeOf sq) =
               (map filterClause (entries (filtersOf sq)) ++
                [rangeClause "@timestamp" (lastHourRange c)])%list).
  { rewrite Ht, mustClauses_specified.
    - rewrite getDateRangeForDSL_default; [reflexivity | |];
        unfold labelled in Hlab;
        repeat (apply orb_false_iff in Hlab; destruct Hlab as [Hlab ?]);
        assumption.
    - unfold timeFilterSpecified. cbn. now rewrite Htruthy, Hnull. }
  assert (Ho : or_else (timeRangeOf sq) (JStr "all_time") = tr).
  { rewrite Ht. cbn. now rewrite Htruthy. }
  rewrite <- Hm in He. rewrite <- Ho in Hk.
  rewrite (processQuery_count_ok srv c query sq aggs link Hi Hn Hd He Hk).
  eexists. split; [reflexivity|]. cbn [dsl answer fst].
  split; [now rewrite Hm | split].
  - right. left. reflexivity.
  - unfold countAnswer. rewrite Ht, (timeDesc_unlabelled tr Hlab). reflexivity.
Qed.

Lemma unlabelled_token_all_time_but_last_hour_witness :
  let sq := JObj [("query_type", JStr "count"); ("time_range", JStr "last_month");
                  ("filters", JObj [("event.outcome", JStr "failure")])] in
  exists r,
    snd (run (processQuery (Sample.serverFor sq) Sample.noon "failures last month"))
      = Some r /\
    dsl r = countDsl [termClause "event.outcome" (JStr "failure");
                      rangeClause "@timestamp"
                        (JObj [("gte", JStr "2025-10-22T11:00:00.000Z");
                               ("lte", JStr "2025-10-22T12:00:00.000Z")])] /\
    answer r =
      "failures last month" ++ nl ++ nl ++
      "**12** events found in the all time." ++ nl ++ nl ++
      "Breakdown by channel:" ++ nl ++ "- mobile: 7" ++ nl ++ "- online: 5".
Proof.
  intros sq.
  destruct (unlabelled_token_all_time_but_last_hour
              (Sample.serverFor sq) Sample.noon "failures last month" sq
              (JStr "last_month") (Some Sample.aggs) Sample.link
              eq_refl eq_refl eq_refl eq_refl eq_refl eq_refl eq_refl
              eq_refl eq_refl) as (r & Hr & Hdsl & _ & Hans).
  exists r. split; [exact Hr | split].
  - rewrite Hdsl. vm_compute. reflexivity.
  - rewrite Hans. vm_compute. reflexivity.
Defined.

(* ================================================================== *)
(** ** Field validation with suggestions *)
(* ================================================================== *)

Lemma first_seen_enumeration : set_enumeration first_seen.
Proof.
  intros l. unfold first_seen. split.
  - apply NoDup_rev, NoDup_nodup.
  - intros x. rewrite <- in_rev, nodup_In, <- in_rev. reflexivity.
Qed.


Lemma matches_of_In target entry f :
  In f (matches_of target entry) <->
  fst entry = f /\ field_matches target entry = true.
Proof.
  destruct entry as [field [syns]]. unfold matches_of, field_matches.
  cbn [fst snd synonyms]. rewrite in_app_iff, orb_true_iff. split.
  - intros [H | H].
    + destruct (includes (toLowerCase field) (toLowerCase target)) eqn:E;
        [|contradiction].
      destruct H as [<- | []]. auto.
    + destruct syns as [syns|]; [|contradiction].
      apply in_flat_map in H. destruct H as (syn & Hs & H).
      destruct (includes (toLowerCase syn) (toLowerCase target)) eqn:E;
        [|contradiction].
      destruct H as [<- | []]. split; [reflexivity|]. right.
      apply existsb_exists. exists syn. auto.
  - intros [<- [H | H]].
    + left. rewrite H. now left.
    + right. apply existsb_exists in H. destruct H as (syn & Hs & H).
      destruct syns as [syns|]; [|contradiction].
      apply in_flat_map. exists syn. split; [exact Hs|]. rewrite H. now left.
Qed.

Lemma collected_In target fields f :
  In f (collected target fields) <->
  exists entry, In entry fields /\ fst entry = f /\
                field_matches target entry = true.
Proof.
  unfold collected. rewrite in_flat_map. split.
  - intros (entry & Hin & H). exists entry. split; [exact Hin|].
    now apply matches_of_In.
  - intros (entry & Hin & H). exists entry. split; [exact Hin|].
    now apply matches_of_In.
Qed.





(* ================================================================== *)
(** ** Further properties of [processQuery] *)
(* ================================================================== *)

(** The runs of [processQuery], case by case: the reply to the
    interpretation, the branch, the reply to the search, the reply to the
    link request. *)
Ltac run_cases srv query :=
  unfold run, processQuery, bind, post;
  destruct (interpret_query srv query) as [sq|] eqn:Hi; cbn [app];
  [ destruct (is_null sq) eqn:Hn;
    [ | destruct (dispatch (queryTypeOf sq)) eqn:Hd;
        [ | | destruct (execute_es_query srv _ _) as [aggs|] eqn:He; cbn [app];
              [ destruct (create_kibana_link srv _ _ _) as [link|] eqn:Hk | ]
          | ] ]
  | ].

(** X1.  Whatever the server answers, [processQuery] posts the
    interpretation first, then at most one search, then at most one link
    request, the link only after the search and on the same index pattern;
    a run that stops after the search returns no response. *)
Theorem processQuery_call_discipline
    (srv : server) (c : clock) (query : string) :
  exists doc time_range kql n,
    (1 <= n <= 3)%nat /\
    fst (run (processQuery srv c query)) =
      firstn n [InterpretQuery query;
                ExecuteEsQuery (indexPatternFor query) doc;
                CreateKibanaLink (indexPatternFor query) time_range kql] /\
    (n = 2%nat -> snd (run (processQuery srv c query)) = None).
Proof.
  run_cases srv query.
  all: try (exists JNull, JNull, "", 1%nat;
            split; [lia | split; [reflexivity | intros E; discriminate E]]).
  - eexists _, _, _, 3%nat.
    split; [lia | split; [reflexivity | intros E; discriminate E]].
  - eexists _, _, _, 3%nat.
    split; [lia | split; [reflexivity | intros E; discriminate E]].
  - eexists _, JNull, "", 2%nat.
    split; [lia | split; [reflexivity | reflexivity]].
Qed.

Lemma processQuery_call_discipline_witness :
  let srv := mkServer (fun _ => Some (JObj [("query_type", JStr "count")]))
                      (fun _ _ => None) (fun _ _ _ => Some Sample.link) in
  snd (run (processQuery srv Sample.noon "failed logins")) = None.
Proof.
  intros srv.
  destruct (processQuery_call_discipline srv Sample.noon "failed logins")
    as (doc & time_range & kql & n & Hn & Hlog & Hstop).
  apply Hstop.
  apply (f_equal (@List.length call)) in Hlog.
  rewrite length_firstn in Hlog. cbn in Hlog. lia.
Defined.

(** X2.  [processQuery] throws exactly when the interpretation call fails or
    gives [null], or when, on a count request, the search or the link
    request fails; greeting, help and unsupported requests never throw once
    interpreted. *)
Theorem processQuery_throws_iff
    (srv : server) (c : clock) (query : string) :
  snd (run (processQuery srv c query)) = None <->
  match interpret_query srv query with
  | None => True
  | Some sq =>
      is_null sq = true \/
      (dispatch (queryTypeOf sq) = Count /\
       (execute_es_query srv (indexPatternFor query)
          (countDsl (mustClauses c (filtersOf sq) (timeRangeOf sq))) = None \/
        create_kibana_link srv (indexPatternFor query)
          (or_else (timeRangeOf sq) (JStr "all_time"))
          (kqlQueryOf (filtersOf sq)) = None))
  end.
Proof.
  run_cases srv query; cbn [snd]; split; intros H;
    try discriminate H; try exact I; intuition congruence.
Qed.

(** X3.  A response that [processQuery] returns agrees with the calls made
    for it: it echoes the interpretation the server gave; the document it
    carries is the one that was posted to the search, and its link is the
    reply to the link request; when no search was posted its link is [null]
    and its document holds no query. *)
Theorem response_agrees_with_calls
    (srv : server) (c : clock) (query : string) (r : response) :
  snd (run (processQuery srv c query)) = Some r ->
  interpret_query srv query = Some (interpreted_query r) /\
  (forall index doc,
     In (ExecuteEsQuery index doc) (fst (run (processQuery srv c query))) ->
     doc = dsl r) /\
  (forall index time_range kql,
     In (CreateKibanaLink index time_range kql)
        (fst (run (processQuery srv c query))) ->
     create_kibana_link srv index time_range kql = Some (kibanaLink r)) /\
  ((forall index doc,
      ~ In (ExecuteEsQuery index doc) (fst (run (processQuery srv c query)))) ->
   kibanaLink r = JNull /\ member (dsl r) "query" = None).
Proof.
  run_cases srv query; cbn [fst snd]; intros H; try discriminate H;
    injection H as <-; cbn [interpreted_query dsl kibanaLink].
  all: split; [reflexivity|].
  all: split; [intros index doc Hin; cbn [In] in Hin;
               repeat (destruct Hin as [Hin | Hin]; try discriminate Hin);
               try contradiction; try (now injection Hin as _ <-)|].
  all: split; [intros index time_range kql Hin; cbn [In] in Hin;
               repeat (destruct Hin as [Hin | Hin]; try discriminate Hin);
               try contradiction;
               try (injection Hin as <- <- <-; exact Hk)|].
  all: try (intros _; split; reflexivity).
  intros Hno. exfalso. eapply Hno. right. left. reflexivity.
Qed.

Lemma response_agrees_with_calls_witness :
  let sq := JObj [("query_type", JStr "count");
                  ("filters", JObj [("event.outcome", JStr "failure")])] in
  exists r,
    snd (run (processQuery (Sample.serverFor sq) Sample.noon "failures")) = Some r /\
    interpreted_query r = sq /\
    dsl r = countDsl [termClause "event.outcome" (JStr "failure")] /\
    kibanaLink r = Sample.link.
Proof.
  intros sq. eexists. split; [reflexivity|].
  destruct (response_agrees_with_calls (Sample.serverFor sq) Sample.noon
              "failures" _ eq_refl) as (Hi & Hd & Hk & _).
  split; [|split].
  - exact (f_equal (fun o => match o with Some v => v | None => JNull end)
                   (eq_sym Hi)).
  - symmetry. apply (Hd "logs-*"). right. left. reflexivity.
  - specialize (Hk "logs-*" (JStr "all_time")
                  ("event.outcome:" ++ dquote ++ "failure" ++ dquote)
                  (or_intror (or_intror (or_introl eq_refl)))).
    exact (f_equal (fun o => match o with Some v => v | None => JNull end)
                   (eq_sym Hk)).
Defined.

(** X4.  The [must] clauses hold one clause per filter and one more exactly
    when a time token is given; each of them is a term clause or a range
    clause on [@timestamp]: no range is ever put on another field. *)
Theorem must_clauses_term_or_timestamp_range
    (c : clock) (filters : json) (timeRange : option json) :
  List.length (mustClauses c filters timeRange) =
    (List.length (entries filters) +
     (if timeFilterSpecified timeRange then 1 else 0))%nat /\
  (forall clause,
     In clause (mustClauses c filters timeRange) ->
     (exists field value, clause = termClause field value) \/
     (exists bounds, clause = rangeClause "@timestamp" bounds)).
Proof.
  unfold mustClauses. split.
  - rewrite length_app, length_map.
    destruct timeRange as [tr|]; [|reflexivity].
    destruct (timeFilterSpecified (Some tr)); reflexivity.
  - intros clause Hin. apply in_app_or in Hin. destruct Hin as [Hin | Hin].
    + apply in_map_iff in Hin. destruct Hin as ([field value] & <- & _).
      unfold filterClause.
      destruct ((field =? "@timestamp")%string && typeof_object value);
        [right | left]; eauto.
    + destruct timeRange as [tr|]; [|contradiction].
      destruct (timeFilterSpecified (Some tr)); [|contradiction].
      destruct Hin as [<- | []]. right. eauto.
Qed.

Lemma must_clauses_term_or_timestamp_range_witness :
  let filters := JObj [("amount", JObj [("gte", JNum 100)]);
                       ("@timestamp", JObj [("gte", JStr "now-7d")])] in
  (exists field value,
     rangeClause "@timestamp" (JObj [("gte", JStr "now-7d")]) =
     termClause field value) \/
  (exists bounds,
     rangeClause "@timestamp" (JObj [("gte", JStr "now-7d")]) =
     rangeClause "@timestamp" bounds).
Proof.
  intros filters.
  apply (proj2 (must_clauses_term_or_timestamp_range Sample.noon filters
                  (Some (JStr "today")))).
  right. left. reflexivity.
Defined.

Lemma append_empty_r (s : string) : s ++ "" = s.
Proof. induction s as [|a s IH]; cbn; [reflexivity | now rewrite IH]. Qed.



(* ================================================================== *)
(** ** Resolved ranges and the keyword helpers *)
(* ================================================================== *)



Lemma lower_ascii_idempotent (a : ascii) :
  lower_ascii (lower_ascii a) = lower_ascii a.
Proof. destruct a as [[] [] [] [] [] [] [] []]; reflexivity. Qed.

Lemma toLowerCase_idempotent (s : string) :
  toLowerCase (toLowerCase s) = toLowerCase s.
Proof.
  induction s as [|a s IH]; cbn; [reflexivity|].
  now rewrite lower_ascii_idempotent, IH.
Qed.

(** X7.  [parseTimeRange] reads the question letter case aside and only ever
    gives no token or one of [last_24h], [last_hour] and [today]; each of
    these has a label in [timeDesc] and counts as a given token; it gives no
    token exactly when the question mentions [total], [all] or [overall]. *)
Theorem parseTimeRange_tokens (query : string) :
  parseTimeRange (toLowerCase query) = parseTimeRange query /\
  (parseTimeRange query = None <->
   includes (toLowerCase query) "total" = true \/
   includes (toLowerCase query) "all" = true \/
   includes (toLowerCase query) "overall" = true) /\
  (forall token,
     parseTimeRange query = Some token ->
     In token ["last_24h"; "last_hour"; "today"] /\
     labelled (JStr token) = true /\
     timeFilterSpecified (Some (JStr token)) = true).
Proof.
  split; [|split].
  - unfold parseTimeRange. now rewrite toLowerCase_idempotent.
  - unfold parseTimeRange.
    destruct (includes (toLowerCase query) "total");
      destruct (includes (toLowerCase query) "all");
      destruct (includes (toLowerCase query) "overall"); cbn [orb];
      try (split; [auto | reflexivity]).
    split; [|intros [H | [H | H]]; discriminate H].
    repeat match goal with
           | |- context [if ?b then _ else _] => destruct b
           end; intros H; discriminate H.
  - intros token. unfold parseTimeRange.
    repeat match goal with
           | |- context [if ?b then _ else _] => destruct b
           end; intros H; try discriminate H; injection H as <-;
      (split; [cbn; auto | split; reflexivity]).
Qed.

Lemma parseTimeRange_tokens_witness :
  In "last_24h" ["last_24h"; "last_hour"; "today"] /\
  labelled (JStr "last_24h") = true.
Proof.
  destruct (proj2 (proj2 (parseTimeRange_tokens
                            "Failed logins in the last 24 Hours"))
              "last_24h" eq_refl) as (Hin & Hl & _).
  split; assumption.
Defined.

(** X8.  The index pattern is chosen letter case aside, is always one of the
    four [logs-] patterns, and a question that mentions [auth] or [login]
    goes to the authentication logs even when it mentions payments or
    mobile as well. *)
Theorem indexPatternFor_choice (query : string) :
  indexPatternFor (toLowerCase query) = indexPatternFor query /\
  In (indexPatternFor query)
     ["logs-auth-*"; "logs-payment-*"; "logs-mobile-*"; "logs-*"] /\
  prefix "logs-" (indexPatternFor query) = true /\
  (includes (toLowerCase query) "auth" = true \/
   includes (toLowerCase query) "login" = true ->
   indexPatternFor query = "logs-auth-*") /\
  (indexPatternFor query = "logs-*" <->
   includes (toLowerCase query) "auth" = false /\
   includes (toLowerCase query) "login" = false /\
   includes (toLowerCase query) "payment" = false /\
   includes (toLowerCase query) "mobile" = false).
Proof.
  unfold indexPatternFor. rewrite toLowerCase_idempotent.
  split; [reflexivity|].
  destruct (includes (toLowerCase query) "auth");
    destruct (includes (toLowerCase query) "login");
    destruct (includes (toLowerCase query) "payment");
    destruct (includes (toLowerCase query) "mobile"); cbn [orb];
    (split; [cbn; auto|]); (split; [reflexivity|]);
    (split; [intros [H | H]; try discriminate H; reflexivity|]);
    (split; [intros H; try discriminate H; auto
            | intros (H1 & H2 & H3 & H4);
              try discriminate H1; try discriminate H2;
              try discriminate H3; try discriminate H4; reflexivity]).
Qed.

Lemma indexPatternFor_choice_witness :
  indexPatternFor "Payment LOGIN failures on mobile" = "logs-auth-*".
Proof.
  apply (proj1 (proj2 (proj2 (proj2
           (indexPatternFor_choice "Payment LOGIN failures on mobile"))))).
  right. reflexivity.
Defined.

(* ================================================================== *)
(** ** The chat: [sendMessage] *)
(* ================================================================== *)

Lemma trimStart_blank s : blank s = true -> trimStart s = "".
Proof.
  induction s as [|a s IH]; cbn; [reflexivity|].
  intros H. apply andb_true_iff in H. destruct H as [Ha Hs].
  rewrite Ha. now apply IH.
Qed.





(** A submit that is not ignored, in one piece. *)
Lemma sendMessage_accepted srv tl st :
  Chat.rejects st = false ->
  Chat.sendMessage srv tl st =
  (Chat.mkState
     (Chat.messages st ++
      [Chat.userMessage tl st;
       Chat.replyMessage tl
         (snd (run (processQuery srv (Chat.queryClock tl)
                      (Chat.inputMessage st))))])%list
     "" false,
   fst (run (processQuery srv (Chat.queryClock tl) (Chat.inputMessage st)))).
Proof.
  intros H. unfold Chat.sendMessage. rewrite H.
  destruct (run (processQuery srv (Chat.queryClock tl) (Chat.inputMessage st)))
    as [log outcome].
  unfold Chat.finishSend, Chat.beginSend.
  cbn [fst snd Chat.messages Chat.inputMessage].
  now rewrite <- app_assoc.
Qed.



(** X10.  A submit that is not ignored appends exactly two messages, the
    user's with the text as typed and then one from the assistant, whether
    the request succeeds or throws; it clears the input and leaves loading
    off. *)
Theorem sendMessage_appends_question_and_reply
    (srv : server) (tl : Chat.timeline) (st : Chat.appState) :
  Chat.rejects st = false ->
  exists user reply,
    Chat.messages (fst (Chat.sendMessage srv tl st)) =
      (Chat.messages st ++ [user; reply])%list /\
    Chat.type user = Chat.User /\
    Chat.content user = Chat.inputMessage st /\
    Chat.type reply = Chat.Assistant /\
    Chat.inputMessage (fst (Chat.sendMessage srv tl st)) = "" /\
    Chat.isLoading (fst (Chat.sendMessage srv tl st)) = false.
Proof.
  intros H. rewrite (sendMessage_accepted srv tl st H). cbn [fst].
  eexists _, _. split; [reflexivity|].
  repeat split.
  destruct (snd (run (processQuery srv (Chat.queryClock tl)
                        (Chat.inputMessage st)))); reflexivity.
Qed.

Lemma sendMessage_appends_question_and_reply_witness :
  let tl := Chat.mkTimeline 1761134400000 1761134400000 Sample.noon
                            1761134400900 1761134400900 in
  exists user reply,
    Chat.messages
      (fst (Chat.sendMessage (Sample.serverFor JNull) tl
              (Chat.mkState [] "failed logins" false))) = [user; reply] /\
    Chat.content user = "failed logins" /\
    Chat.type reply = Chat.Assistant.
Proof.
  intros tl.
  destruct (sendMessage_appends_question_and_reply (Sample.serverFor JNull) tl
              (Chat.mkState [] "failed logins" false) eq_refl)
    as (user & reply & Hm & _ & Hc & Hr & _).
  exists user, reply. auto.
Defined.

Lemma alternates_app (n : nat) :
  forall l u a,
    (List.length l <= n)%nat ->
    Chat.type u = Chat.User -> Chat.type a = Chat.Assistant ->
    Chat.alternates l = true ->
    Chat.alternates (l ++ [u; a]) = true.
Proof.
  induction n as [|n IH]; intros l u a Hlen Hu Ha Hl.
  - destruct l; [|cbn in Hlen; lia]. cbn. now rewrite Hu, Ha.
  - destruct l as [|x [|y l]].
    + cbn. now rewrite Hu, Ha.
    + discriminate Hl.
    + cbn [app Chat.alternates] in *.
      destruct (Chat.type x); [|discriminate Hl].
      destruct (Chat.type y); [discriminate Hl|].
      apply IH; try assumption. cbn in Hlen. lia.
Qed.

Lemma step_keeps_order (st : Chat.appState) (a : Chat.action) :
  Chat.alternates (Chat.messages st) = true /\ Chat.isLoading st = false ->
  Chat.alternates (Chat.messages (Chat.step st a)) = true /\
  Chat.isLoading (Chat.step st a) = false /\
  exists more, Chat.messages (Chat.step st a) = (Chat.messages st ++ more)%list.
Proof.
  intros [Hal Hl]. destruct a as [text | srv tl]; cbn [Chat.step].
  - cbn. split; [exact Hal | split; [exact Hl|]]. exists []. now rewrite app_nil_r.
  - destruct (Chat.rejects st) eqn:Hr.
    + unfold Chat.sendMessage. rewrite Hr. cbn [fst].
      split; [exact Hal | split; [exact Hl|]]. exists []. now rewrite app_nil_r.
    + rewrite (sendMessage_accepted srv tl st Hr). cbn [fst Chat.messages Chat.isLoading].
      split; [|split; [reflexivity | eauto]].
      apply (alternates_app (List.length (Chat.messages st)));
        [lia | reflexivity | | exact Hal].
      destruct (snd (run (processQuery srv (Chat.queryClock tl)
                            (Chat.inputMessage st)))); reflexivity.
Qed.

(** X11.  Over any sequence of typing and submitting from the empty chat,
    the messages are user and assistant messages in turn, user first, so
    every question has its reply right after it; no request is left in
    flight; and a step never removes or reorders the messages already
    there. *)
Theorem session_messages_alternate (actions : list Chat.action) :
  Chat.alternates (Chat.messages (Chat.session actions)) = true /\
  Chat.isLoading (Chat.session actions) = false /\
  (forall a, exists more,
     Chat.messages (Chat.session (actions ++ [a])) =
     (Chat.messages (Chat.session actions) ++ more)%list).
Proof.
  unfold Chat.session.
  assert (Hinv : forall acts st,
            Chat.alternates (Chat.messages st) = true /\ Chat.isLoading st = false ->
            Chat.alternates (Chat.messages (fold_left Chat.step acts st)) = true /\
            Chat.isLoading (fold_left Chat.step acts st) = false).
  { induction acts as [|a acts IH]; intros st Hst; [exact Hst|].
    cbn [fold_left]. apply IH.
    destruct (step_keeps_order st a Hst) as (H1 & H2 & _). auto. }
  destruct (Hinv actions Chat.initialState (conj eq_refl eq_refl)) as [H1 H2].
  split; [exact H1 | split; [exact H2|]].
  intros a. rewrite fold_left_app. cbn [fold_left].
  apply (step_keeps_order _ a). auto.
Qed.

(* ================================================================== *)
(** ** The chat: what a reply shows *)
(* ================================================================== *)



(** X12.  When the request throws -- the interpretation, the search or the
    link request failed -- the assistant's message is the fixed apology,
    with no link button and no document panel: nothing of the error reaches
    the chat. *)
Theorem failed_request_shows_apology_only
    (srv : server) (tl : Chat.timeline) (st : Chat.appState) :
  Chat.rejects st = false ->
  snd (run (processQuery srv (Chat.queryClock tl) (Chat.inputMessage st))) = None ->
  exists reply,
    Chat.messages (fst (Chat.sendMessage srv tl st)) =
      (Chat.messages st ++ [Chat.userMessage tl st; reply])%list /\
    Chat.content reply = Chat.apology /\
    Chat.showsKibanaButton reply = false /\
    Chat.showsDslDetails reply = false.
Proof.
  intros Hr Hf. rewrite (sendMessage_accepted srv tl st Hr), Hf. cbn [fst].
  eexists. split; [reflexivity|]. repeat split.
Qed.

Lemma failed_request_shows_apology_only_witness :
  let tl := Chat.mkTimeline 1761134400000 1761134400000 Sample.noon
                            1761134400900 1761134400900 in
  let srv := mkServer (fun _ => Some (JObj [("query_type", JStr "count")]))
                      (fun _ _ => None) (fun _ _ _ => Some Sample.link) in
  exists reply,
    Chat.messages (fst (Chat.sendMessage srv tl
                          (Chat.mkState [] "failed logins" false))) =
      [Chat.userMessage tl (Chat.mkState [] "failed logins" false); reply] /\
    Chat.content reply = Chat.apology.
Proof.
  intros tl srv.
  destruct (failed_request_shows_apology_only srv tl
              (Chat.mkState [] "failed logins" false) eq_refl eq_refl)
    as (reply & Hm & Hc & _).
  exists reply. split; [exact Hm | exact Hc].
Defined.



(* ================================================================== *)
(** ** Further properties of the field validation *)
(* ================================================================== *)


Lemma prefix_app n h : prefix n h = true <-> exists post, h = n ++ post.
Proof.
  revert h. induction n as [|a n IH]; intros h.
  - split; [intros _; now exists h | intros _; destruct h; reflexivity].
  - destruct h as [|b h]; cbn.
    + split; [intros H; discriminate H | intros [post H]; discriminate H].
    + destruct (ascii_dec a b) as [-> | Hne].
      * rewrite IH. split; intros [post H]; exists post; congruence.
      * split; [intros H; discriminate H | intros [post H]; congruence].
Qed.

(** [includes] finds the needle exactly when the hay is some text, the
    needle, and some text. *)
Lemma includes_spec h n :
  includes h n = true <-> exists pre post, h = pre ++ n ++ post.
Proof.
  induction h as [|a h IH].
  - cbn [includes]. rewrite orb_false_r, prefix_app. split.
    + intros [post H]. now exists "", post.
    + intros (pre & post & H). destruct pre; [|discriminate H].
      now exists post.
  - cbn [includes]. rewrite orb_true_iff, prefix_app, IH. split.
    + intros [[post H] | (pre & post & H)].
      * now exists "", post.
      * exists (String a pre), post. cbn. now rewrite H.
    + intros (pre & post & H). destruct pre as [|b pre].
      * left. now exists post.
      * right. cbn in H. injection H as _ H. now exists pre, post.
Qed.

Lemma includes_itself s : includes s s = true.
Proof. apply includes_spec. exists "", "". cbn. now rewrite append_empty_r. Qed.

Lemma includes_nothing s : includes s "" = true.
Proof. apply includes_spec. now exists "", s. Qed.


Lemma in_dict_iff name (fields : schema) :
  in_dict name fields = true <-> exists meta, In (name, meta) fields.
Proof.
  unfold in_dict. rewrite existsb_exists. split.
  - intros ([k meta] & Hin & Hk). cbn in Hk. apply String.eqb_eq in Hk.
    subst k. now exists meta.
  - intros [meta Hin]. exists (name, meta). split; [exact Hin|].
    apply String.eqb_refl.
Qed.

(** X14.  The validation answers valid exactly for the names that are keys
    of the schema, letter for letter, and then gives the name back as it
    came; no suggestion is computed for them, so the outcome does not depend
    on how the set of suggestions is enumerated. *)
Theorem validation_valid_iff_key
    (list_of_set : list string -> list string)
    (field_name : string) (available_fields : schema) :
  (forall field,
     validate_field_with_suggestions list_of_set field_name available_fields =
       Valid field <->
     field = field_name /\ exists meta, In (field_name, meta) available_fields) /\
  ((exists meta, In (field_name, meta) available_fields) ->
   forall list_of_set',
     validate_field_with_suggestions list_of_set' field_name available_fields =
     Valid field_name).
Proof.
  split.
  - intros field. rewrite <- in_dict_iff. unfold validate_field_with_suggestions.
    destruct (in_dict field_name available_fields).
    + split; [intros H; injection H as <-; auto | intros [-> _]; reflexivity].
    + split.
      * destruct (find_similar_fields _ _ _); intros H; discriminate H.
      * intros [_ H]. discriminate H.
  - intros H list_of_set'. apply in_dict_iff in H.
    unfold validate_field_with_suggestions. now rewrite H.
Qed.

Lemma validation_valid_iff_key_witness :
  validate_field_with_suggestions last_first "event.outcome" Sample.logSchema =
    Valid "event.outcome".
Proof.
  apply (proj2 (validation_valid_iff_key first_seen "event.outcome"
                  Sample.logSchema)).
  exists (mkMeta (Some ["result"; "status"])). right. left. reflexivity.
Defined.

(** X15.  A name that is a schema field up to letter case, but not a key
    letter for letter, is not valid, and that field is among its
    suggestions; and the empty name has every field of the schema among its
    suggestions. *)
Theorem case_variant_is_suggested
    (list_of_set : list string -> list string)
    (field_name field : string) (meta : metadata) (available_fields : schema) :
  set_enumeration list_of_set ->
  In (field, meta) available_fields ->
  (toLowerCase field_name = toLowerCase field ->
   In field (find_similar_fields list_of_set field_name available_fields) /\
   (in_dict field_name available_fields = false ->
    exists error,
      validate_field_with_suggestions list_of_set field_name available_fields =
        Invalid error /\
      error <> "field '" ++ field_name ++ "' not found")) /\
  In field (find_similar_fields list_of_set "" available_fields).
Proof.
  intros Hset Hin.
  assert (Hsugg : forall name,
            includes (toLowerCase field) (toLowerCase name) = true ->
            In field (find_similar_fields list_of_set name available_fields)).
  { intros name Hinc. unfold find_similar_fields. apply (proj2 (Hset _)).
    apply collected_In. exists (field, meta). split; [exact Hin|].
    split; [reflexivity|]. unfold field_matches. cbn [fst]. now rewrite Hinc. }
  split.
  - intros Hcase.
    assert (Hs : In field (find_similar_fields list_of_set field_name
                             available_fields)).
    { apply Hsugg. rewrite Hcase. apply includes_itself. }
    split; [exact Hs|].
    intros Hd. unfold validate_field_with_suggestions. rewrite Hd.
    destruct (find_similar_fields list_of_set field_name available_fields)
      as [|f rest]; [contradiction|].
    eexists. split; [reflexivity|].
    intros E. apply (f_equal String.length) in E.
    rewrite !length_append in E. cbn [String.length] in E. lia.
  - apply Hsugg. apply includes_nothing.
Qed.

Lemma case_variant_is_suggested_witness :
  In "app.channel" (find_similar_fields first_seen "App.Channel" Sample.logSchema) /\
  In "event.outcome" (find_similar_fields first_seen "" Sample.logSchema).
Proof.
  split.
  - apply (proj1 (proj1 (case_variant_is_suggested first_seen "App.Channel"
                           "app.channel" (mkMeta (Some ["channel"; "platform"]))
                           Sample.logSchema first_seen_enumeration
                           (or_introl eq_refl)) eq_refl)).
  - apply (proj2 (case_variant_is_suggested first_seen "App.Channel"
                    "event.outcome" (mkMeta (Some ["result"; "status"]))
                    Sample.logSchema first_seen_enumeration
                    (or_intror (or_introl eq_refl)))).
Defined.



(* ================================================================== *)
(** ** The link request against the search *)
(* ================================================================== *)

(** X17.  On a count request whose search is answered, the link request is
    made for the index pattern of the search and with the filter expression
    of the same filters; when the document is bounded by a time token the
    request carries that very token, and when the token is missing or falsy
    it carries [all_time] and the document has no clause for the time
    range. *)
Theorem link_request_mirrors_search
    (srv : server) (c : clock) (query : string) (sq : json)
    (aggs : option aggregations) :
  interpret_query srv query = Some sq ->
  is_null sq = false ->
  dispatch (queryTypeOf sq) = Count ->
  execute_es_query srv (indexPatternFor query)
    (countDsl (mustClauses c (filtersOf sq) (timeRangeOf sq))) = Some aggs ->
  exists time_range,
    fst (run (processQuery srv c query)) =
      [InterpretQuery query;
       ExecuteEsQuery (indexPatternFor query)
         (countDsl (mustClauses c (filtersOf sq) (timeRangeOf sq)));
       CreateKibanaLink (indexPatternFor query) time_range
         (kqlQueryOf (filtersOf sq))] /\
    (forall token,
       timeRangeOf sq = Some token ->
       timeFilterSpecified (Some token) = true ->
       time_range = token /\
       In (rangeClause "@timestamp" (getDateRangeForDSL c token))
          (mustClauses c (filtersOf sq) (timeRangeOf sq))) /\
    (truthy_opt (timeRangeOf sq) = false ->
     time_range = JStr "all_time" /\
     mustClauses c (filtersOf sq) (timeRangeOf sq) =
       map filterClause (entries (filtersOf sq))).
Proof.
  intros Hi Hn Hd He.
  exists (or_else (timeRangeOf sq) (JStr "all_time")).
  split; [|split].
  - unfold run, processQuery, bind, post.
    rewrite Hi. cbn [app]. rewrite Hn, Hd, He. cbn [app].
    destruct (create_kibana_link srv _ _ _); reflexivity.
  - intros token Ht Hs. rewrite Ht. split.
    + unfold timeFilterSpecified in Hs. cbn in Hs.
      apply andb_true_iff in Hs. destruct Hs as [Hs _]. cbn. now rewrite Hs.
    + rewrite (mustClauses_specified c _ token Hs).
      apply in_or_app. right. left. reflexivity.
  - intros Hf. split.
    + destruct (timeRangeOf sq) as [t|]; cbn in *; [now rewrite Hf | reflexivity].
    + apply mustClauses_unspecified. unfold timeFilterSpecified. now rewrite Hf.
Qed.

Lemma link_request_mirrors_search_witness :
  let sq := JObj [("time_range", JStr "last_24h");
                  ("filters", JObj [("app.channel", JStr "mobile")])] in
  exists time_range,
    fst (run (processQuery (Sample.serverFor sq) Sample.noon "mobile errors")) =
      [InterpretQuery "mobile errors";
       ExecuteEsQuery "logs-mobile-*"
         (countDsl (mustClauses Sample.noon (filtersOf sq) (timeRangeOf sq)));
       CreateKibanaLink "logs-mobile-*" time_range
         (kqlQueryOf (filtersOf sq))] /\
    time_range = JStr "last_24h".
Proof.
  intros sq.
  destruct (link_request_mirrors_search (Sample.serverFor sq) Sample.noon
              "mobile errors" sq (Some Sample.aggs)
              eq_refl eq_refl eq_refl eq_refl) as (time_range & Hr & Ht & _).
  exists time_range. split; [exact Hr|].
  apply (Ht (JStr "last_24h") eq_refl eq_refl).
Defined.
